(** * Docker datasource: registry client (lib/datasource/docker/common.ts)

    A shallow embedding of the registry client of the docker datasource:
    repository location, the authentication handshake, manifest and
    config-digest resolution, and the cached label lookup, together with the
    error classification each of them performs in its [catch] block.

    The collaborators the module imports (the HTTP client, host rules, the
    package cache, the ECR client, the WWW-Authenticate parser and the
    JavaScript built-ins [JSON.parse], [Buffer] and number printing) are not
    part of the file; they are the fields of an environment record [Env].
    The general theorems hold for an arbitrary environment; the examples run
    on the scripted registries of [Scenario]. *)

From Stdlib Require Import Ascii String QArith DecimalString.
From stdpp Require Import base strings gmap list.

Open Scope string_scope.

Set Warnings "-register-all".

(** ** JavaScript strings *)

Module Str.

(** [s.startsWith(p)] *)
Definition startsWith (s p : string) : bool := String.prefix p s.

(** [s.endsWith(p)]: some suffix of [s] is [p]. *)
Fixpoint endsWith (s p : string) : bool :=
  String.eqb s p ||
  match s with
  | EmptyString => false
  | String _ t => endsWith t p
  end.

(** [s.includes(c)] for a one-character needle. *)
Fixpoint includes (s : string) (c : ascii) : bool :=
  match s with
  | EmptyString => false
  | String a t => Ascii.eqb a c || includes t c
  end.

(** [s.split(sep)] for a one-character separator; never the empty list. *)
Fixpoint split (sep : ascii) (s : string) : list string :=
  match s with
  | EmptyString => [EmptyString]
  | String c t =>
      if Ascii.eqb c sep then EmptyString :: split sep t
      else match split sep t with
           | [] => [String c EmptyString]
           | h :: r => String c h :: r
           end
  end.

(** [parts.join(sep)] *)
Fixpoint join (sep : string) (parts : list string) : string :=
  match parts with
  | [] => EmptyString
  | [p] => p
  | p :: rest => p +:+ sep +:+ join sep rest
  end.

(** [s.slice(n)] *)
Fixpoint drop (n : nat) (s : string) : string :=
  match n, s with
  | O, _ => s
  | S _, EmptyString => EmptyString
  | S m, String _ t => drop m t
  end.

(** [s.replace(pat, rep)] with a string pattern: the first occurrence only. *)
Fixpoint replace (pat rep s : string) : string :=
  if startsWith s pat then rep +:+ drop (String.length pat) s
  else match s with
       | EmptyString => EmptyString
       | String c t => String c (replace pat rep t)
       end.

Definition upper_char (c : ascii) : ascii :=
  let n := nat_of_ascii c in
  if (97 <=? n)%nat && (n <=? 122)%nat then ascii_of_nat (n - 32) else c.

(** [s.toUpperCase()] on the Latin letters. *)
Fixpoint toUpperCase (s : string) : string :=
  match s with
  | EmptyString => EmptyString
  | String c t => String (upper_char c) (toUpperCase t)
  end.

(** A JavaScript string is truthy unless it is empty. *)
Definition truthy (s : string) : bool :=
  match s with EmptyString => false | _ => true end.

End Str.

(** ** JavaScript values

    The values [JSON.parse] produces, plus [undefined]. Numbers are the
    rationals the parsed numerals denote; they are only ever compared. *)

Inductive JsValue : Type :=
| JUndefined
| JNull
| JBool (b : bool)
| JNum (q : Q)
| JStr (s : string)
| JArr (items : list JsValue)
| JObj (props : list (string * JsValue)).

(** ** Thrown values

    [JsError] is any error object that is not an [ExternalHostError]; the
    record holds the loosely typed fields the [catch] blocks inspect. *)

Record ErrorFields : Type := mkError {
  name : string;
  message : string;
  statusCode : option Z;
  code : option string;
  host : option string;
}.

Inductive Thrown : Type :=
| JsError (e : ErrorFields)
| ExternalHostError (err : Thrown).

(** [err instanceof ExternalHostError] *)
Definition instanceof_ExternalHostError (err : Thrown) : bool :=
  match err with ExternalHostError _ => true | JsError _ => false end.

(** Field reads on a caught value. An [ExternalHostError] is an [Error]
    whose message is the constant below; it carries no [statusCode], [code]
    or [host] of its own. *)
Definition EXTERNAL_HOST_ERROR : string := "external-host-error".

Definition err_name (err : Thrown) : string :=
  match err with JsError e => name e | ExternalHostError _ => "Error" end.
Definition err_message (err : Thrown) : string :=
  match err with JsError e => message e | ExternalHostError _ => EXTERNAL_HOST_ERROR end.
Definition err_statusCode (err : Thrown) : option Z :=
  match err with JsError e => statusCode e | ExternalHostError _ => None end.
Definition err_code (err : Thrown) : option string :=
  match err with JsError e => code e | ExternalHostError _ => None end.
Definition err_host (err : Thrown) : option string :=
  match err with JsError e => host e | ExternalHostError _ => None end.

(** [err.statusCode === n] *)
Definition statusCode_is (err : Thrown) (n : Z) : bool :=
  match err_statusCode err with Some c => Z.eqb c n | None => false end.

(** [err.statusCode >= 500 && err.statusCode < 600] *)
Definition statusCode_5xx (err : Thrown) : bool :=
  match err_statusCode err with
  | Some c => Z.leb 500 c && Z.ltb c 600
  | None => false
  end.

(** [field === s] for an optional string field. *)
Definition field_is (f : option string) (s : string) : bool :=
  match f with Some v => String.eqb v s | None => false end.

(** The [TypeError] of a property read on [undefined] or [null]. *)
Definition TypeError (what : string) : Thrown :=
  JsError (mkError "TypeError" ("Cannot read properties of " +:+ what) None None None).

Module Js.

(** ToBoolean *)
Definition truthy (v : JsValue) : bool :=
  match v with
  | JUndefined | JNull => false
  | JBool b => b
  | JNum q => negb (Qeq_bool q 0)
  | JStr s => Str.truthy s
  | JArr _ | JObj _ => true
  end.

Fixpoint lookup_prop (props : list (string * JsValue)) (key : string) : JsValue :=
  match props with
  | [] => JUndefined
  | (k, v) :: rest => if String.eqb k key then v else lookup_prop rest key
  end.

Definition of_nat (n : nat) : JsValue := JNum (inject_Z (Z.of_nat n)).

(** [v.key] for a key that is not an array index. *)
Definition get (v : JsValue) (key : string) : Thrown + JsValue :=
  match v with
  | JUndefined => inl (TypeError "undefined")
  | JNull => inl (TypeError "null")
  | JObj props => inr (lookup_prop props key)
  | JArr items => inr (if String.eqb key "length" then of_nat (length items) else JUndefined)
  | JStr s => inr (if String.eqb key "length" then of_nat (String.length s) else JUndefined)
  | JBool _ | JNum _ => inr JUndefined
  end.

(** [v[i]] *)
Definition index (v : JsValue) (i : nat) : Thrown + JsValue :=
  match v with
  | JUndefined => inl (TypeError "undefined")
  | JNull => inl (TypeError "null")
  | JObj props => inr (lookup_prop props (NilZero.string_of_uint (Nat.to_uint i)))
  | JArr items => inr (nth i items JUndefined)
  | JStr s => inr (match String.get i s with
                   | Some c => JStr (String c EmptyString)
                   | None => JUndefined
                   end)
  | JBool _ | JNum _ => inr JUndefined
  end.

(** [v?.key] *)
Definition get_opt (v : JsValue) (key : string) : JsValue :=
  match get v key with inr r => r | inl _ => JUndefined end.

(** [v?.[i]] *)
Definition index_opt (v : JsValue) (i : nat) : JsValue :=
  match index v i with inr r => r | inl _ => JUndefined end.

(** [a || b] *)
Definition or (a b : JsValue) : JsValue := if truthy a then a else b.

(** [v === n] for a number literal [n]. *)
Definition is_num (v : JsValue) (n : Q) : bool :=
  match v with JNum q => Qeq_bool q n | _ => false end.

(** [v === s] for a string [s]. *)
Definition is_str (v : JsValue) (s : string) : bool :=
  match v with JStr t => String.eqb t s | _ => false end.

(** [v !== undefined] *)
Definition defined (v : JsValue) : bool :=
  match v with JUndefined => false | _ => true end.

Section ToString.
(** Number printing is the engine's. *)
Variable number_to_string : Q -> string.

(** The string a template literal substitutes for [v]. *)
Fixpoint to_string (v : JsValue) : string :=
  match v with
  | JUndefined => "undefined"
  | JNull => "null"
  | JBool true => "true"
  | JBool false => "false"
  | JNum q => number_to_string q
  | JStr s => s
  | JArr items =>
      Str.join ","
        (List.map (fun x => match x with
                            | JUndefined | JNull => EmptyString
                            | _ => to_string x
                            end) items)
  | JObj _ => "[object Object]"
  end.
End ToString.

End Js.

(** ** Constants of the module and of its imports *)

(** [export const id = 'docker'] *)
Definition id : string := "docker".

Definition defaultRegistryUrls : list string := ["https://index.docker.io"].

(** [defaultRegistryUrls[0]] *)
Definition defaultRegistryUrl : string := nth 0 defaultRegistryUrls EmptyString.

(** Modelled from the spec: the [MediaType] enum is declared in [./types],
    which is not part of the file; its two members are the media types the
    manifest request names in its [accept] header. *)
Module MediaType.
Definition manifestV2 : string :=
  "application/vnd.docker.distribution.manifest.v2+json".
Definition manifestListV2 : string :=
  "application/vnd.docker.distribution.manifest.list.v2+json".
End MediaType.

(** Modelled from the spec: [HOST_DISABLED] is declared in
    [constants/error-messages]; it is the message of the error raised for a
    host the credential layer has disabled. *)
Definition HOST_DISABLED : string := "host-disabled".

(** ** [ecrRegex]: [/\d+\.dkr\.ecr\.([-a-z0-9]+)\.amazonaws\.com/]

    Both quantified classes are followed by a literal dot that belongs to
    neither class, so a match takes each run whole and backtracking never
    finds another one. [exec] returns capture group 1 of the leftmost match. *)
Module EcrRegex.

Definition in_range (lo hi : nat) (c : ascii) : bool :=
  let n := nat_of_ascii c in (lo <=? n)%nat && (n <=? hi)%nat.

Definition is_digit (c : ascii) : bool := in_range 48 57 c.

Definition is_region_char (c : ascii) : bool :=
  Ascii.eqb c "-" || in_range 97 122 c || in_range 48 57 c.

Fixpoint take_while (p : ascii -> bool) (s : string) : string :=
  match s with
  | EmptyString => EmptyString
  | String c t => if p c then String c (take_while p t) else EmptyString
  end.

Fixpoint skip_while (p : ascii -> bool) (s : string) : string :=
  match s with
  | EmptyString => EmptyString
  | String c t => if p c then skip_while p t else s
  end.

Definition expect (lit s : string) : option string :=
  if Str.startsWith s lit then Some (Str.drop (String.length lit) s) else None.

Definition match_at (s : string) : option string :=
  if Str.truthy (take_while is_digit s) then
    match expect ".dkr.ecr." (skip_while is_digit s) with
    | Some r =>
        let region := take_while is_region_char r in
        if Str.truthy region then
          match expect ".amazonaws.com" (skip_while is_region_char r) with
          | Some _ => Some region
          | None => None
          end
        else None
    | None => None
    end
  else None.

Fixpoint exec (s : string) : option string :=
  match match_at s with
  | Some region => Some region
  | None => match s with
            | EmptyString => None
            | String _ t => exec t
            end
  end.

Definition test (s : string) : bool :=
  match exec s with Some _ => true | None => false end.

End EcrRegex.

(** ** Collaborators *)

(** What [hostRules.find] returns. *)
Record HostRule : Type := mkHostRule {
  username : option string;
  password : option string;
  insecureRegistry : option bool;
}.

Definition no_rule : HostRule := mkHostRule None None None.

(** The two fields when [opts.username && opts.password] is truthy. *)
Definition credentials_of (r : HostRule) : option (string * string) :=
  match username r, password r with
  | Some u, Some p => if Str.truthy u && Str.truthy p then Some (u, p) else None
  | _, _ => None
  end.

(** The options object of an HTTP call. [getAuthHeaders] passes its host
    rule, extended with [headers], as the options of its second and third
    request. *)
Record HttpOptions : Type := mkOptions {
  rule : HostRule;
  headers : option (gmap string string);
  throwHttpErrors : option bool;
}.

Record HttpResponse : Type := mkResponse {
  res_statusCode : Z;
  res_headers : gmap string string;
  res_body : string;
}.

(** [ECRClientConfig] *)
Record ECRClientConfig : Type := mkECRConfig {
  region : string;
  credentials : option (string * string);
}.

(** The parsed challenge: [scheme] and the two [parms] the module reads. *)
Record Challenge : Type := mkChallenge {
  scheme : string;
  realm : option string;
  service : option string;
}.

(** Every call that leaves the process, in the order it was made. *)
Inductive Event : Type :=
| HttpGet (url : string) (opts : HttpOptions)
| HttpGetJson (url : string) (opts : HttpOptions)
| EcrGetAuthorizationToken (config : ECRClientConfig).

(** The environment. The answer of a remote party may depend on everything
    that was sent before. *)
Record Env : Type := mkEnv {
  http_get : list Event -> string -> HttpOptions -> Thrown + HttpResponse;
  http_getJson : list Event -> string -> HttpOptions -> Thrown + JsValue;
  ecr_getAuthorizationToken : list Event -> ECRClientConfig -> Thrown + JsValue;
  hostRules_find : string -> string -> HostRule;
  WWW_Authenticate : string -> Thrown + Challenge;
  JSON_parse : string -> Thrown + JsValue;
  base64 : string -> string;
  number_to_string : Q -> string;
}.

(** ** Program state *)

Record CacheEntry : Type := mkEntry {
  value : JsValue;
  expires : Z;
}.

(** [now] is the wall clock in minutes; it moves between calls only. *)
Record State : Type := mkState {
  cache : gmap (string * string) CacheEntry;
  now : Z;
  log : list Event;
}.

Definition record (ev : Event) (s : State) : State :=
  mkState (cache s) (now s) (log s ++ [ev]).

(** ** The monad of an [async] function: state, exceptions, divergence *)

Inductive Outcome (A : Type) : Type :=
| Returned (a : A)
| Raised (err : Thrown)
| OutOfFuel.
Arguments Returned {A} a.
Arguments Raised {A} err.
Arguments OutOfFuel {A}.

Definition M (A : Type) : Type := State -> Outcome A * State.

Definition ret {A} (a : A) : M A := fun s => (Returned a, s).
Definition throw {A} (err : Thrown) : M A := fun s => (Raised err, s).
Definition diverge {A} : M A := fun s => (OutOfFuel, s).

Definition bind {A B} (m : M A) (k : A -> M B) : M B :=
  fun s =>
    match m s with
    | (Returned a, s') => k a s'
    | (Raised err, s') => (Raised err, s')
    | (OutOfFuel, s') => (OutOfFuel, s')
    end.

(** [try { body } catch (err) { handler }] *)
Definition try_catch {A} (body : M A) (handler : Thrown -> M A) : M A :=
  fun s =>
    match body s with
    | (Raised err, s') => handler err s'
    | r => r
    end.

(** A pure step that may throw. *)
Definition lift {A} (r : Thrown + A) : M A :=
  match r with inl err => throw err | inr a => ret a end.

Declare Scope js_scope.
Delimit Scope js_scope with js.
Notation "x <- m ;; k" := (bind m (fun x => k))
  (at level 100, m at next level, right associativity) : js_scope.
Notation "m ;;; k" := (bind m (fun _ => k))
  (at level 100, right associativity) : js_scope.
Open Scope js_scope.

(** ** The package cache *)

(** Modelled from the spec: the package cache is [util/cache/package],
    consumed as a namespace/key store with a time to live in minutes:
    [get(namespace, key) -> T | undefined] and
    [set(namespace, key, value, ttlMinutes) -> void]. An entry answers
    until its time to live has passed. *)
Module packageCache.
(** The live entry under a key, [undefined] when there is none. *)
Definition lookup (namespace key : string) (s : State) : JsValue :=
  match cache s !! (namespace, key) with
  | Some e => if Z.ltb (now s) (expires e) then value e else JUndefined
  | None => JUndefined
  end.

Definition get (namespace key : string) : M JsValue :=
  fun s => (Returned (lookup namespace key s), s).

Definition set (namespace key : string) (v : JsValue) (ttlMinutes : Z) : M unit :=
  fun s =>
    (Returned tt,
     mkState (<[(namespace, key) := mkEntry v (now s + ttlMinutes)%Z]> (cache s))
             (now s) (log s)).
End packageCache.

(** ** URL helpers *)

Module Url.

(** Modelled from the spec: [ensureTrailingSlash] is declared in [util/url];
    it normalises the trailing slash, adding one unless the string already
    ends with one. *)
Definition ensureTrailingSlash (url : string) : string :=
  if Str.endsWith url "/" then url else url +:+ "/".

(** Modelled from the spec: [trimTrailingSlash] is declared in [util/url];
    it strips the trailing slashes of its argument. *)
Fixpoint trimTrailingSlash (url : string) : string :=
  match url with
  | EmptyString => EmptyString
  | String c t =>
      match trimTrailingSlash t with
      | EmptyString => if Ascii.eqb c "/" then EmptyString else String c EmptyString
      | r => String c r
      end
  end.

(** [/^https?:\/\//.test(s)] *)
Definition has_scheme (s : string) : bool :=
  Str.startsWith s "http://" || Str.startsWith s "https://".

(** [s.replace(/^https?:\/\//, '')] *)
Definition strip_scheme (s : string) : string :=
  if Str.startsWith s "https://" then Str.drop 8 s
  else if Str.startsWith s "http://" then Str.drop 7 s
  else s.

End Url.

Record RegistryRepository : Type := mkRegistryRepository {
  registry : string;
  repository : string;
}.

Section Docker.

Context (env : Env).

(** ** Collaborator calls *)

(** [http.get(url, opts)] *)
Definition http_get_call (url : string) (opts : HttpOptions) : M HttpResponse :=
  fun s =>
    let s' := record (HttpGet url opts) s in
    match http_get env (log s) url opts with
    | inl err => (Raised err, s')
    | inr res => (Returned res, s')
    end.

(** [(await http.getJson(url, opts)).body] *)
Definition http_getJson_body (url : string) (opts : HttpOptions) : M JsValue :=
  fun s =>
    let s' := record (HttpGetJson url opts) s in
    match http_getJson env (log s) url opts with
    | inl err => (Raised err, s')
    | inr body => (Returned body, s')
    end.

(** [ecr.getAuthorizationToken({})] on a client built from [config]. *)
Definition ecr_call (config : ECRClientConfig) : M JsValue :=
  fun s =>
    let s' := record (EcrGetAuthorizationToken config) s in
    match ecr_getAuthorizationToken env (log s) config with
    | inl err => (Raised err, s')
    | inr data => (Returned data, s')
    end.

(** Template literals substitute [String(v)]. *)
Definition String_ (v : JsValue) : string := Js.to_string (number_to_string env) v.

(** [String(parms.x)] for a challenge parameter that may be missing. *)
Definition String_parm (p : option string) : string :=
  match p with Some v => v | None => "undefined" end.

(** ** [getECRAuthToken] *)

Definition getECRAuthToken (region : string) (opts : HostRule) : M JsValue :=
  let config :=
    mkECRConfig region (credentials_of opts) in
  try_catch
    (data <- ecr_call config ;;
     let authorizationToken :=
       Js.get_opt (Js.index_opt (Js.get_opt data "authorizationData") 0)
                  "authorizationToken" in
     if Js.truthy authorizationToken then ret authorizationToken
     else ret JNull)
    (fun err => ret JNull).

(** ** [getAuthHeaders] *)

(** What [getAuthHeaders] hands to its caller: a headers object, [null],
    or the [headers] field of [opts] when nothing was ever assigned to it. *)
Inductive AuthHeaders : Type :=
| HeadersUndefined
| HeadersNull
| Headers (h : gmap string string).

Definition of_opts_headers (h : option (gmap string string)) : AuthHeaders :=
  match h with Some m => Headers m | None => HeadersUndefined end.

Definition getAuthHeaders_try (registry dockerRepository : string) : M AuthHeaders :=
  let apiCheckUrl := registry +:+ "/v2/" in
  apiCheckResponse <- http_get_call apiCheckUrl (mkOptions no_rule None (Some false)) ;;
  match res_headers apiCheckResponse !! "www-authenticate" with
  | None => ret (Headers ∅)
  | Some challenge =>
      authenticateHeader <- lift (WWW_Authenticate env challenge) ;;
      let opts := hostRules_find env id apiCheckUrl in
      opts_headers <-
        match EcrRegex.exec registry with
        | Some region =>
            auth <- getECRAuthToken region opts ;;
            if Js.truthy auth
            then ret (Some {[ "authorization" := "Basic " +:+ String_ auth ]})
            else ret None
        | None =>
            match credentials_of opts with
            | Some (u, p) =>
                ret (Some {[ "authorization" :=
                               "Basic " +:+ base64 env (u +:+ ":" +:+ p) ]})
            | None => ret None
            end
        end ;;
      let opts :=
        mkOptions (mkHostRule None None (insecureRegistry opts)) opts_headers None in
      if String.eqb (Str.toUpperCase (scheme authenticateHeader)) "BASIC" then
        http_get_call apiCheckUrl opts ;;;
        ret (of_opts_headers (headers opts))
      else
        let authUrl :=
          String_parm (realm authenticateHeader) +:+ "?service=" +:+
          String_parm (service authenticateHeader) +:+
          "&scope=repository:" +:+ dockerRepository +:+ ":pull" in
        authResponse <- http_getJson_body authUrl opts ;;
        token1 <- lift (Js.get authResponse "token") ;;
        token <- (if Js.truthy token1 then ret token1
                  else lift (Js.get authResponse "access_token")) ;;
        if negb (Js.truthy token) then ret HeadersNull
        else ret (Headers {[ "authorization" := "Bearer " +:+ String_ token ]})
  end.

Definition getAuthHeaders_catch (registry : string) (err : Thrown) : M AuthHeaders :=
  if field_is (err_host err) "quay.io" then ret HeadersNull
  else if statusCode_is err 401 then ret HeadersNull
  else if statusCode_is err 403 then ret HeadersNull
  else if String.eqb (err_name err) "RequestError" && Str.endsWith registry "docker.io"
    then throw (ExternalHostError err)
  else if statusCode_is err 429 && Str.endsWith registry "docker.io"
    then throw (ExternalHostError err)
  else if statusCode_5xx err then throw (ExternalHostError err)
  else if String.eqb (err_message err) HOST_DISABLED then ret HeadersNull
  else ret HeadersNull.

Definition getAuthHeaders (registry dockerRepository : string) : M AuthHeaders :=
  try_catch (getAuthHeaders_try registry dockerRepository)
            (getAuthHeaders_catch registry).

(** ** [getManifestResponse] *)

Definition manifest_accept : string :=
  "application/vnd.docker.distribution.manifest.list.v2+json, application/vnd.docker.distribution.manifest.v2+json".

Definition getManifestResponse_try (registry dockerRepository : string) (tag : JsValue)
  : M (option HttpResponse) :=
  headers <- getAuthHeaders registry dockerRepository ;;
  match headers with
  | Headers h =>
      let h := <[ "accept" := manifest_accept ]> h in
      let url := registry +:+ "/v2/" +:+ dockerRepository +:+ "/manifests/" +:+ String_ tag in
      manifestResponse <- http_get_call url (mkOptions no_rule (Some h) None) ;;
      ret (Some manifestResponse)
  | _ => ret None
  end.

Definition getManifestResponse_catch (registry : string) (err : Thrown)
  : M (option HttpResponse) :=
  if instanceof_ExternalHostError err then throw err
  else if statusCode_is err 401 then ret None
  else if statusCode_is err 404 then ret None
  else if statusCode_is err 429 && Str.endsWith registry "docker.io"
    then throw (ExternalHostError err)
  else if statusCode_5xx err then throw (ExternalHostError err)
  else if field_is (err_code err) "ETIMEDOUT" then ret None
  else ret None.

Definition getManifestResponse (registry dockerRepository : string) (tag : JsValue)
  : M (option HttpResponse) :=
  try_catch (getManifestResponse_try registry dockerRepository tag)
            (getManifestResponse_catch registry).

(** ** [getConfigDigest]

    The function calls itself on the first entry of a manifest list and
    nothing in it bounds the depth, so the embedding counts calls: [fuel]
    is the number of invocations allowed. The [tag] of a recursive call is
    whatever value the entry's [digest] holds. *)

Fixpoint getConfigDigest (fuel : nat) (registry dockerRepository : string)
         (tag : JsValue) : M JsValue :=
  match fuel with
  | O => diverge
  | S fuel' =>
      manifestResponse <- getManifestResponse registry dockerRepository tag ;;
      match manifestResponse with
      | None => ret JNull
      | Some response =>
          manifest <- lift (JSON_parse env (res_body response)) ;;
          schemaVersion <- lift (Js.get manifest "schemaVersion") ;;
          if negb (Js.is_num schemaVersion 2) then ret JNull
          else
            mediaType <- lift (Js.get manifest "mediaType") ;;
            is_list <-
              (if Js.is_str mediaType MediaType.manifestListV2 then
                 manifests <- lift (Js.get manifest "manifests") ;;
                 len <- lift (Js.get manifests "length") ;;
                 ret (Js.truthy len)
               else ret false) ;;
            if is_list : bool then
              manifests <- lift (Js.get manifest "manifests") ;;
              first <- lift (Js.index manifests 0) ;;
              digest <- lift (Js.get first "digest") ;;
              getConfigDigest fuel' registry dockerRepository digest
            else if Js.is_str mediaType MediaType.manifestV2 then
              config <- lift (Js.get manifest "config") ;;
              ret (Js.or (Js.get_opt config "digest") JNull)
            else ret JNull
      end
  end.

(** ** [getLabels] *)

Definition cacheNamespace : string := "datasource-docker-labels".

Definition cacheKey (registry dockerRepository tag : string) : string :=
  registry +:+ ":" +:+ dockerRepository +:+ ":" +:+ tag.

Definition cacheMinutes : Z := 60.

Definition getLabels_try (fuel : nat) (registry dockerRepository tag : string)
  : M JsValue :=
  configDigest <- getConfigDigest fuel registry dockerRepository (JStr tag) ;;
  if negb (Js.truthy configDigest) then ret (JObj [])
  else
    headers <- getAuthHeaders registry dockerRepository ;;
    match headers with
    | Headers h =>
        let url := registry +:+ "/v2/" +:+ dockerRepository +:+ "/blobs/" +:+
                   String_ configDigest in
        configResponse <- http_get_call url (mkOptions no_rule (Some h) None) ;;
        parsed <- lift (JSON_parse env (res_body configResponse)) ;;
        config <- lift (Js.get parsed "config") ;;
        labels <- lift (Js.get config "Labels") ;;
        packageCache.set cacheNamespace
          (cacheKey registry dockerRepository tag) labels cacheMinutes ;;;
        ret labels
    | _ => ret (JObj [])
    end.

(** Every branch but the first only logs; all of them fall through to
    [return {}]. *)
Definition getLabels_catch (registry : string) (err : Thrown) : M JsValue :=
  if instanceof_ExternalHostError err then throw err
  else if statusCode_is err 400 || statusCode_is err 401 then ret (JObj [])
  else if statusCode_is err 404 then ret (JObj [])
  else if statusCode_is err 429 && Str.endsWith registry "docker.io" then ret (JObj [])
  else if statusCode_5xx err then ret (JObj [])
  else if field_is (err_code err) "ERR_TLS_CERT_ALTNAME_INVALID"
          || field_is (err_code err) "ETIMEDOUT" then ret (JObj [])
  else if String.eqb registry "https://quay.io" then ret (JObj [])
  else ret (JObj []).

Definition getLabels (fuel : nat) (registry dockerRepository tag : string)
  : M JsValue :=
  cachedResult <- packageCache.get cacheNamespace
                    (cacheKey registry dockerRepository tag) ;;
  if Js.defined cachedResult then ret cachedResult
  else try_catch (getLabels_try fuel registry dockerRepository tag)
                 (getLabels_catch registry).

(** ** [getRegistryRepository] *)

(** [opts?.insecureRegistry] *)
Definition insecure (r : HostRule) : bool :=
  match insecureRegistry r with Some b => b | None => false end.

Definition getRegistryRepository (lookupName registryUrl : string)
  : RegistryRepository :=
  let registryEndingWithSlash :=
    Url.ensureTrailingSlash (Url.strip_scheme registryUrl) in
  if negb (String.eqb registryUrl defaultRegistryUrl)
     && Str.startsWith lookupName registryEndingWithSlash
  then
    let registry := Url.trimTrailingSlash registryUrl in
    let registry :=
      if negb (Url.has_scheme registry) then "https://" +:+ registry else registry in
    mkRegistryRepository registry (Str.replace registryEndingWithSlash "" lookupName)
  else
    let split := Str.split "/" lookupName in
    let '(registry, split) :=
      match split with
      | first :: rest =>
          if (1 <? length split)%nat
             && (Str.includes first "." || Str.includes first ":")
          then (Some first, rest)
          else (None, split)
      | [] => (None, split)
      end in
    let repository := Str.join "/" split in
    let registry :=
      match registry with
      | Some r => if Str.truthy r then r else registryUrl
      | None => registryUrl
      end in
    let registry :=
      if String.eqb registry "docker.io" then "index.docker.io" else registry in
    let registry :=
      if negb (Url.has_scheme registry) then "https://" +:+ registry else registry in
    let opts := hostRules_find env id registry in
    let registry :=
      if insecure opts then Str.replace "https" "http" registry else registry in
    let repository :=
      if Str.endsWith registry ".docker.io" && negb (Str.includes repository "/")
      then "library/" +:+ repository
      else repository in
    mkRegistryRepository registry repository.

End Docker.


(** ** Shapes of a parsed manifest

    The conditions [getConfigDigest] evaluates, as predicates on the value
    [JSON.parse] returned. *)
Module Manifest.

(** [manifest.schemaVersion === 2] *)
Definition schemaVersion_is_2 (m : JsValue) : bool :=
  match Js.get m "schemaVersion" with
  | inr v => Js.is_num v 2
  | inl _ => false
  end.

(** [manifest.schemaVersion !== 2] *)
Definition schemaVersion_differs (m : JsValue) : bool :=
  match Js.get m "schemaVersion" with
  | inr v => negb (Js.is_num v 2)
  | inl _ => false
  end.

(** [manifest.mediaType === t] *)
Definition has_mediaType (m : JsValue) (t : string) : bool :=
  match Js.get m "mediaType" with
  | inr v => Js.is_str v t
  | inl _ => false
  end.

(** The entries of [manifest.manifests] when it is an array. *)
Definition entries (m : JsValue) : option (list JsValue) :=
  match Js.get m "manifests" with
  | inr (JArr items) => Some items
  | _ => None
  end.

(** [manifest.config?.digest] *)
Definition config_digest (m : JsValue) : JsValue :=
  match Js.get m "config" with
  | inr c => Js.get_opt c "digest"
  | inl _ => JUndefined
  end.

End Manifest.

(** ** A scripted registry

    Concrete environments for the examples: a registry is a table from URL
    to response, the HTTP client throws an [HTTPError] for a status of 400
    or more unless [throwHttpErrors] is [false], and [JSON.parse] inverts
    [stringify] on the documents the registry serves. *)
Module Scenario.

Definition dquote : string := String "034" EmptyString.

Definition quoted (s : string) : string := dquote +:+ s +:+ dquote.

(** JSON text of a value whose numbers are integers and whose strings need
    no escapes. *)
Fixpoint stringify (v : JsValue) : string :=
  match v with
  | JUndefined => "undefined"
  | JNull => "null"
  | JBool true => "true"
  | JBool false => "false"
  | JNum q => NilZero.string_of_int (Z.to_int (Qnum q))
  | JStr s => quoted s
  | JArr items => "[" +:+ Str.join "," (List.map stringify items) +:+ "]"
  | JObj props =>
      "{" +:+
      Str.join "," (List.map (fun kv => quoted (fst kv) +:+ ":" +:+ stringify (snd kv)) props)
      +:+ "}"
  end.

Definition SyntaxError : Thrown :=
  JsError (mkError "SyntaxError" "Unexpected token in JSON" None None None).

Fixpoint parse_among (docs : list JsValue) (text : string) : Thrown + JsValue :=
  match docs with
  | [] => inl SyntaxError
  | d :: rest => if String.eqb (stringify d) text then inr d else parse_among rest text
  end.

Definition HTTPError (status : Z) : Thrown :=
  JsError (mkError "HTTPError" "Response code is not ok" (Some status) None None).

Definition RequestError : Thrown :=
  JsError (mkError "RequestError" "getaddrinfo ENOTFOUND" None (Some "ENOTFOUND") None).

Definition Server : Type := string -> option HttpResponse.

Definition answer (server : Server) (url : string) (opts : HttpOptions)
  : Thrown + HttpResponse :=
  match server url with
  | None => inl RequestError
  | Some res =>
      if Z.ltb (res_statusCode res) 400 then inr res
      else match throwHttpErrors opts with
           | Some false => inr res
           | _ => inl (HTTPError (res_statusCode res))
           end
  end.

Fixpoint serve (table : list (string * HttpResponse)) : Server :=
  fun url =>
    match table with
    | [] => None
    | (u, res) :: rest => if String.eqb u url then Some res else serve rest url
    end.

Fixpoint parse_challenge (table : list (string * Challenge)) (header : string)
  : Thrown + Challenge :=
  match table with
  | [] => inl (TypeError "null")
  | (h, c) :: rest => if String.eqb h header then inr c else parse_challenge rest header
  end.

(** No example reads the value of a Basic header or prints a fraction, so
    the identity stands in for base64 and numbers print as integers; the ECR
    service is out of reach. *)
Definition make (table : list (string * HttpResponse)) (docs : list JsValue)
           (challenges : list (string * Challenge))
           (rules : string -> HostRule) : Env :=
  {| http_get := fun _ url opts => answer (serve table) url opts;
     http_getJson := fun _ url opts =>
       match answer (serve table) url opts with
       | inl err => inl err
       | inr res => parse_among docs (res_body res)
       end;
     ecr_getAuthorizationToken := fun _ _ => inl RequestError;
     hostRules_find := fun _ url => rules url;
     WWW_Authenticate := parse_challenge challenges;
     JSON_parse := parse_among docs;
     base64 := fun s => s;
     number_to_string := fun q => NilZero.string_of_int (Z.to_int (Qnum q)) |}.

Definition fresh : State := mkState ∅ 0 [].

Definition ok (body : string) : HttpResponse := mkResponse 200 ∅ body.

Definition status (code : Z) : HttpResponse := mkResponse code ∅ EmptyString.

Definition challenge (code : Z) (header : string) : HttpResponse :=
  mkResponse code {[ "www-authenticate" := header ]} EmptyString.

(** Documents *)
Definition num (z : Z) : JsValue := JNum (inject_Z z).

Definition image_manifest (digest : string) : JsValue :=
  JObj [("schemaVersion", num 2);
        ("mediaType", JStr MediaType.manifestV2);
        ("config", JObj [("digest", JStr digest)])].

Definition manifest_list (digests : list string) : JsValue :=
  JObj [("schemaVersion", num 2);
        ("mediaType", JStr MediaType.manifestListV2);
        ("manifests", JArr (List.map (fun d => JObj [("digest", JStr d)]) digests))].

Definition list_without_manifests : JsValue :=
  JObj [("schemaVersion", num 2);
        ("mediaType", JStr MediaType.manifestListV2)].

Definition config_blob (config : list (string * JsValue)) : JsValue :=
  JObj [("config", JObj config)].

Definition token_doc : JsValue := JObj [("token", JStr "t0k3n")].

Definition schema1_manifest : JsValue :=
  JObj [("schemaVersion", num 1); ("name", JStr "library/ubuntu")].

Definition labelled_blob : JsValue :=
  config_blob [("Labels", JObj [("maintainer", JStr "renovate")])].

Definition documents : list JsValue :=
  [token_doc; image_manifest "sha256:abc";
   manifest_list ["sha256:111"; "sha256:222"]; manifest_list [];
   list_without_manifests; config_blob []; config_blob [("Labels", JObj [])];
   labelled_blob;
   schema1_manifest].

(** A registry with a bearer challenge whose realm is [registry/token]. *)
Definition bearer_header (registry : string) : string :=
  "Bearer realm=" +:+ registry +:+ "/token,service=registry".

Definition token_url (registry repo : string) : string :=
  registry +:+ "/token?service=registry&scope=repository:" +:+ repo +:+ ":pull".

Definition manifest_url (registry repo tag : string) : string :=
  registry +:+ "/v2/" +:+ repo +:+ "/manifests/" +:+ tag.

Definition blob_url (registry repo digest : string) : string :=
  registry +:+ "/v2/" +:+ repo +:+ "/blobs/" +:+ digest.

Definition site (registry repo : string) (probe token : HttpResponse)
           (manifests blobs : list (string * HttpResponse))
  : list (string * HttpResponse) :=
  (registry +:+ "/v2/", probe) ::
  (token_url registry repo, token) ::
  List.map (fun m => (manifest_url registry repo (fst m), snd m)) manifests ++
  List.map (fun b => (blob_url registry repo (fst b), snd b)) blobs.

Definition bearer (registry repo : string) (token : HttpResponse)
           (manifests blobs : list (string * HttpResponse)) : Env :=
  make (site registry repo (challenge 401 (bearer_header registry)) token manifests blobs)
       documents
       [(bearer_header registry,
         mkChallenge "Bearer" (Some (registry +:+ "/token")) (Some "registry"))]
       (fun _ => no_rule).

Definition hub : string := "https://index.docker.io".
Definition other : string := "https://registry.example.com".
Definition lookalike : string := "https://registry.notdocker.io".
Definition repo : string := "library/ubuntu".

(** The token service, the manifest of [latest] and the config blob of the
    image answer as given. *)
Definition image_site (registry : string) (token manifest blob : HttpResponse) : Env :=
  bearer registry repo token [("latest", manifest)] [("sha256:abc", blob)].

Definition good_token : HttpResponse := ok (stringify token_doc).
Definition good_manifest : HttpResponse := ok (stringify (image_manifest "sha256:abc")).
Definition good_blob : HttpResponse := ok (stringify labelled_blob).
Definition empty_labels_blob : HttpResponse :=
  ok (stringify (config_blob [("Labels", JObj [])])).
Definition no_labels_blob : HttpResponse := ok (stringify (config_blob [])).

(** [latest] is a manifest list whose first entry is the image. *)
Definition list_site : Env :=
  bearer hub repo good_token
    [("latest", ok (stringify (manifest_list ["sha256:111"; "sha256:222"])));
     ("sha256:111", good_manifest)]
    [("sha256:abc", good_blob)].

(** The same list, but the registry fails on the manifest of its first
    entry. *)
Definition broken_list_site : Env :=
  bearer hub repo good_token
    [("latest", ok (stringify (manifest_list ["sha256:111"; "sha256:222"])));
     ("sha256:111", status 500)]
    [("sha256:abc", good_blob)].

(** A registry that challenges with Basic; the check of the computed
    headers answers [check]. The table is keyed by URL, so the challenge
    rides on the same response. *)
Definition basic_site (registry : string) (code : Z) (rules : string -> HostRule) : Env :=
  make [(registry +:+ "/v2/", challenge code "Basic realm=registry");
        (manifest_url registry repo "latest", good_manifest)]
       documents
       [("Basic realm=registry", mkChallenge "Basic" (Some "registry") None)]
       rules.

End Scenario.

(** ** Observations on a run

    What a call leaves behind: the requests it appended to the log, and
    whether it touched the cache or the clock. *)

(** An HTTP request whose options hold neither [username] nor [password]. *)
Definition without_credentials (ev : Event) : Prop :=
  match ev with
  | HttpGet _ opts | HttpGetJson _ opts =>
      username (rule opts) = None /\ password (rule opts) = None
  | EcrGetAuthorizationToken _ => True
  end.

(** From [s] to [s'] the cache and the clock are untouched and the log grew
    by events that all satisfy [P]. *)
Definition only_requests (P : Event -> Prop) (s s' : State) : Prop :=
  cache s' = cache s /\ now s' = now s /\
  exists evs, log s' = (log s ++ evs)%list /\ Forall P evs.

(** Every run of [m] only makes requests that satisfy [P]. *)
Definition requests_only {A} (P : Event -> Prop) (m : M A) : Prop :=
  forall s, only_requests P s (snd (m s)).

(** ** Conditions of [getRegistryRepository] *)

(** [split.length > 1 && (split[0].includes('.') || split[0].includes(':'))]:
    the first segment of the lookup name names a registry. *)
Definition names_registry (lookupName : string) : bool :=
  match Str.split "/" lookupName with
  | first :: rest =>
      (1 <? length (first :: rest))%nat
      && (Str.includes first "." || Str.includes first ":")
  | [] => false
  end.

(** ** The options [getAuthHeaders] builds *)

(** [opts] after [delete opts.username; delete opts.password], with
    [headers] as given. *)
Definition stripped (found : HostRule) (h : option (gmap string string)) : HttpOptions :=
  mkOptions (mkHostRule None None (insecureRegistry found)) h None.

(** [opts.headers] for a registry that is not an ECR one: the Basic header
    of the credentials found, when both are there. *)
Definition basic_headers (env : Env) (found : HostRule) : option (gmap string string) :=
  match credentials_of found with
  | Some (u, p) =>
      Some {[ "authorization" := "Basic " +:+ base64 env (u +:+ ":" +:+ p) ]}
  | None => None
  end.

(** The URL of the token exchange. *)
Definition authUrl (ch : Challenge) (dockerRepository : string) : string :=
  String_parm (realm ch) +:+ "?service=" +:+ String_parm (service ch) +:+
  "&scope=repository:" +:+ dockerRepository +:+ ":pull".

(** [data?.authorizationData?.[0]?.authorizationToken] *)
Definition authorizationToken (data : JsValue) : JsValue :=
  Js.get_opt (Js.index_opt (Js.get_opt data "authorizationData") 0)
             "authorizationToken".

(** The probe of [getAuthHeaders]. *)
Definition probe_options : HttpOptions := mkOptions no_rule None (Some false).

(** ** A scripted ECR registry *)

Module EcrScenario.

Definition host : string := "https://123456789012.dkr.ecr.us-east-1.amazonaws.com".


(** The registry challenges with Basic and accepts every check; the ECR
    service answers [answer]. *)
Definition site (answer : Thrown + JsValue) (rules : string -> HostRule) : Env :=
  let base := Scenario.basic_site host 200 rules in
  mkEnv (http_get base) (http_getJson base) (fun _ _ => answer)
        (hostRules_find base) (WWW_Authenticate base) (JSON_parse base)
        (base64 base) (number_to_string base).

End EcrScenario.

(** ** Character classes *)

(** Every character of [s] is in the class [p]. *)
Fixpoint all_chars (p : ascii -> bool) (s : string) : bool :=
  match s with
  | EmptyString => true
  | String c t => p c && all_chars p t
  end.

(** * Properties *)

(** ** The monad *)

Section MonadFacts.
Context {A B : Type}.

Lemma bind_returned (m : M A) (k : A -> M B) s a s' :
  m s = (Returned a, s') -> bind m k s = k a s'.
Proof. intros H. unfold bind. rewrite H. reflexivity. Qed.

Lemma bind_raised (m : M A) (k : A -> M B) s err s' :
  m s = (Raised err, s') -> bind m k s = (Raised err, s').
Proof. intros H. unfold bind. rewrite H. reflexivity. Qed.

Lemma bind_diverged (m : M A) (k : A -> M B) s s' :
  m s = (OutOfFuel, s') -> bind m k s = (OutOfFuel, s').
Proof. intros H. unfold bind. rewrite H. reflexivity. Qed.

Lemma try_catch_returned (body : M A) handler s a s' :
  body s = (Returned a, s') -> try_catch body handler s = (Returned a, s').
Proof. intros H. unfold try_catch. rewrite H. reflexivity. Qed.

Lemma try_catch_raised (body : M A) handler s err s' :
  body s = (Raised err, s') -> try_catch body handler s = handler err s'.
Proof. intros H. unfold try_catch. rewrite H. reflexivity. Qed.

Lemma bind_lift_inr (r : Thrown + A) (k : A -> M B) s a :
  r = inr a -> bind (lift r) k s = k a s.
Proof. intros ->. reflexivity. Qed.

Lemma bind_lift_inl (r : Thrown + A) (k : A -> M B) s err :
  r = inl err -> bind (lift r) k s = (Raised err, s).
Proof. intros ->. reflexivity. Qed.
End MonadFacts.

(** ** Reading the fields of a manifest *)

Lemma schemaVersion_is_2_get m :
  Manifest.schemaVersion_is_2 m = true ->
  exists v, Js.get m "schemaVersion" = inr v /\ Js.is_num v 2 = true.
Proof.
  unfold Manifest.schemaVersion_is_2.
  destruct (Js.get m "schemaVersion") as [e|v]; [discriminate|eauto].
Qed.

Lemma schemaVersion_differs_get m :
  Manifest.schemaVersion_differs m = true ->
  exists v, Js.get m "schemaVersion" = inr v /\ Js.is_num v 2 = false.
Proof.
  unfold Manifest.schemaVersion_differs.
  destruct (Js.get m "schemaVersion") as [e|v]; [discriminate|].
  intros H. exists v. split; [reflexivity|]. now apply negb_true_iff.
Qed.

Lemma has_mediaType_get m t :
  Manifest.has_mediaType m t = true -> Js.get m "mediaType" = inr (JStr t).
Proof.
  unfold Manifest.has_mediaType.
  destruct (Js.get m "mediaType") as [e|[]]; simpl; try discriminate.
  intros H. apply String.eqb_eq in H. now subst.
Qed.

Lemma entries_get m items :
  Manifest.entries m = Some items -> Js.get m "manifests" = inr (JArr items).
Proof.
  unfold Manifest.entries.
  destruct (Js.get m "manifests") as [e|[]]; try discriminate.
  now intros [= ->].
Qed.

Lemma is_str_refl t : Js.is_str (JStr t) t = true.
Proof. simpl. apply String.eqb_refl. Qed.

(** One invocation of [getConfigDigest] up to the schema check. *)
Lemma getConfigDigest_unfold env fuel registry repo tag s response s1 manifest v :
  getManifestResponse env registry repo tag s = (Returned (Some response), s1) ->
  JSON_parse env (res_body response) = inr manifest ->
  Js.get manifest "schemaVersion" = inr v ->
  getConfigDigest env (S fuel) registry repo tag s =
    (if negb (Js.is_num v 2) then ret JNull
     else
       mediaType <- lift (Js.get manifest "mediaType") ;;
       is_list <-
         (if Js.is_str mediaType MediaType.manifestListV2 then
            manifests <- lift (Js.get manifest "manifests") ;;
            len <- lift (Js.get manifests "length") ;;
            ret (Js.truthy len)
          else ret false) ;;
       if is_list : bool then
         manifests <- lift (Js.get manifest "manifests") ;;
         first <- lift (Js.index manifests 0) ;;
         digest <- lift (Js.get first "digest") ;;
         getConfigDigest env fuel registry repo digest
       else if Js.is_str mediaType MediaType.manifestV2 then
         config <- lift (Js.get manifest "config") ;;
         ret (Js.or (Js.get_opt config "digest") JNull)
       else ret JNull) s1.
Proof.
  intros Hm Hp Hv. simpl.
  rewrite (bind_returned _ _ _ _ _ Hm).
  rewrite (bind_lift_inr _ _ _ _ Hp).
  rewrite (bind_lift_inr _ _ _ _ Hv).
  reflexivity.
Qed.

(** C8. A manifest whose [schemaVersion] is not 2 makes [getConfigDigest]
    return [null]; nothing is raised and no further request is made. *)
Theorem getConfigDigest_other_schemaVersion
        env fuel registry repo tag s response s1 manifest :
  getManifestResponse env registry repo tag s = (Returned (Some response), s1) ->
  JSON_parse env (res_body response) = inr manifest ->
  Manifest.schemaVersion_differs manifest = true ->
  getConfigDigest env (S fuel) registry repo tag s = (Returned JNull, s1).
Proof.
  intros Hm Hp Hd.
  destruct (schemaVersion_differs_get _ Hd) as (v & Hv & Hne).
  rewrite (getConfigDigest_unfold _ _ _ _ _ _ _ _ _ _ Hm Hp Hv).
  rewrite Hne. reflexivity.
Qed.

Ltac evaluate := vm_compute; reflexivity.

Lemma getConfigDigest_other_schemaVersion_witness :
  let env := Scenario.image_site Scenario.other Scenario.good_token
               (Scenario.ok (Scenario.stringify Scenario.schema1_manifest))
               Scenario.good_blob in
  getConfigDigest env 1 Scenario.other Scenario.repo (JStr "latest") Scenario.fresh =
    (Returned JNull,
     snd (getManifestResponse env Scenario.other Scenario.repo (JStr "latest") Scenario.fresh)).
Proof.
  intros env.
  apply (getConfigDigest_other_schemaVersion env 0 Scenario.other Scenario.repo
           (JStr "latest") Scenario.fresh
           (Scenario.ok (Scenario.stringify Scenario.schema1_manifest)) _
           Scenario.schema1_manifest); evaluate.
Defined.

(** ** The branches of [getConfigDigest] *)

Lemma truthy_of_nat_S n : Js.truthy (Js.of_nat (S n)) = true.
Proof. reflexivity. Qed.

Lemma manifestV2_is_not_list :
  Js.is_str (JStr MediaType.manifestV2) MediaType.manifestListV2 = false.
Proof. reflexivity. Qed.

(** A single-image manifest yields [manifest.config?.digest || null]. *)
Lemma getConfigDigest_image env fuel registry repo tag s response s1 manifest :
  getManifestResponse env registry repo tag s = (Returned (Some response), s1) ->
  JSON_parse env (res_body response) = inr manifest ->
  Manifest.schemaVersion_is_2 manifest = true ->
  Manifest.has_mediaType manifest MediaType.manifestV2 = true ->
  getConfigDigest env (S fuel) registry repo tag s =
    (Returned (Js.or (Manifest.config_digest manifest) JNull), s1).
Proof.
  intros Hm Hp Hs Ht.
  destruct (schemaVersion_is_2_get _ Hs) as (v & Hv & H2).
  rewrite (getConfigDigest_unfold _ _ _ _ _ _ _ _ _ _ Hm Hp Hv), H2. simpl.
  rewrite (bind_lift_inr _ _ _ _ (has_mediaType_get _ _ Ht)).
  rewrite manifestV2_is_not_list.
  unfold bind at 1, ret at 1. rewrite is_str_refl.
  unfold Manifest.config_digest.
  destruct (Js.get manifest "config") as [e|c] eqn:Hc.
  - destruct manifest; simpl in Hc; try discriminate;
      simpl in Hv; discriminate.
  - reflexivity.
Qed.

(** A manifest of a media type the function does not know yields [null]. *)
Lemma getConfigDigest_unknown_mediaType env fuel registry repo tag s response s1
      manifest :
  getManifestResponse env registry repo tag s = (Returned (Some response), s1) ->
  JSON_parse env (res_body response) = inr manifest ->
  Manifest.schemaVersion_is_2 manifest = true ->
  Manifest.has_mediaType manifest MediaType.manifestListV2 = false ->
  Manifest.has_mediaType manifest MediaType.manifestV2 = false ->
  getConfigDigest env (S fuel) registry repo tag s = (Returned JNull, s1).
Proof.
  intros Hm Hp Hs Hl Hi.
  destruct (schemaVersion_is_2_get _ Hs) as (v & Hv & H2).
  rewrite (getConfigDigest_unfold _ _ _ _ _ _ _ _ _ _ Hm Hp Hv), H2. simpl.
  unfold Manifest.has_mediaType in Hl, Hi.
  destruct (Js.get manifest "mediaType") as [e|t] eqn:Ht.
  - destruct manifest; simpl in Ht; try discriminate; simpl in Hv; discriminate.
  - unfold bind, lift, ret. rewrite Hl, Hi. reflexivity.
Qed.

(** A manifest list whose [manifests] array is empty yields [null]. *)
Lemma getConfigDigest_empty_list env fuel registry repo tag s response s1 manifest :
  getManifestResponse env registry repo tag s = (Returned (Some response), s1) ->
  JSON_parse env (res_body response) = inr manifest ->
  Manifest.schemaVersion_is_2 manifest = true ->
  Manifest.has_mediaType manifest MediaType.manifestListV2 = true ->
  Manifest.entries manifest = Some [] ->
  getConfigDigest env (S fuel) registry repo tag s = (Returned JNull, s1).
Proof.
  intros Hm Hp Hs Ht He.
  destruct (schemaVersion_is_2_get _ Hs) as (v & Hv & H2).
  rewrite (getConfigDigest_unfold _ _ _ _ _ _ _ _ _ _ Hm Hp Hv), H2. simpl.
  rewrite (has_mediaType_get _ _ Ht), (entries_get _ _ He).
  reflexivity.
Qed.

(** A manifest list without a [manifests] field: reading [.length] of
    [undefined] raises, and [getConfigDigest] has no handler. *)
Lemma getConfigDigest_list_without_manifests env fuel registry repo tag s response s1
      manifest :
  getManifestResponse env registry repo tag s = (Returned (Some response), s1) ->
  JSON_parse env (res_body response) = inr manifest ->
  Manifest.schemaVersion_is_2 manifest = true ->
  Manifest.has_mediaType manifest MediaType.manifestListV2 = true ->
  Js.get manifest "manifests" = inr JUndefined ->
  getConfigDigest env (S fuel) registry repo tag s =
    (Raised (TypeError "undefined"), s1).
Proof.
  intros Hm Hp Hs Ht He.
  destruct (schemaVersion_is_2_get _ Hs) as (v & Hv & H2).
  rewrite (getConfigDigest_unfold _ _ _ _ _ _ _ _ _ _ Hm Hp Hv), H2. simpl.
  rewrite (has_mediaType_get _ _ Ht), He.
  reflexivity.
Qed.

(** The recursive step on a manifest list with a first entry. *)
Lemma getConfigDigest_list_step env fuel registry repo tag s response s1 manifest
      first rest digest :
  getManifestResponse env registry repo tag s = (Returned (Some response), s1) ->
  JSON_parse env (res_body response) = inr manifest ->
  Manifest.schemaVersion_is_2 manifest = true ->
  Manifest.has_mediaType manifest MediaType.manifestListV2 = true ->
  Manifest.entries manifest = Some (first :: rest) ->
  Js.get first "digest" = inr digest ->
  getConfigDigest env (S fuel) registry repo tag s =
    getConfigDigest env fuel registry repo digest s1.
Proof.
  intros Hm Hp Hs Ht He Hd.
  destruct (schemaVersion_is_2_get _ Hs) as (v & Hv & H2).
  rewrite (getConfigDigest_unfold _ _ _ _ _ _ _ _ _ _ Hm Hp Hv), H2. simpl.
  rewrite (has_mediaType_get _ _ Ht), (entries_get _ _ He).
  unfold bind, lift, ret. simpl. rewrite Hd.
  reflexivity.
Qed.

(** C6. On a schemaVersion-2 manifest list with at least one entry,
    [getConfigDigest] calls itself with the [digest] of the first entry as
    the new [tag], from the state the manifest fetch left. When that digest
    then resolves to a single-image manifest whose [config.digest] is
    [sha256:abc], the outer call returns [sha256:abc]. *)
Theorem getConfigDigest_manifest_list
        env fuel registry repo tag s response s1 manifest first rest digest :
  getManifestResponse env registry repo tag s = (Returned (Some response), s1) ->
  JSON_parse env (res_body response) = inr manifest ->
  Manifest.schemaVersion_is_2 manifest = true ->
  Manifest.has_mediaType manifest MediaType.manifestListV2 = true ->
  Manifest.entries manifest = Some (first :: rest) ->
  Js.get first "digest" = inr digest ->
  getConfigDigest env (S fuel) registry repo tag s =
    getConfigDigest env fuel registry repo digest s1
  /\ forall response2 s2 image,
      getManifestResponse env registry repo digest s1 =
        (Returned (Some response2), s2) ->
      JSON_parse env (res_body response2) = inr image ->
      Manifest.schemaVersion_is_2 image = true ->
      Manifest.has_mediaType image MediaType.manifestV2 = true ->
      Manifest.config_digest image = JStr "sha256:abc" ->
      getConfigDigest env (S (S fuel)) registry repo tag s =
        (Returned (JStr "sha256:abc"), s2).
Proof.
  intros Hm Hp Hs Ht He Hd. split.
  - eapply getConfigDigest_list_step; eauto.
  - intros response2 s2 image Hm2 Hp2 Hs2 Ht2 Hc.
    rewrite (getConfigDigest_list_step _ _ _ _ _ _ _ _ _ _ _ _ Hm Hp Hs Ht He Hd).
    rewrite (getConfigDigest_image _ _ _ _ _ _ _ _ _ Hm2 Hp2 Hs2 Ht2), Hc.
    reflexivity.
Qed.

Lemma getConfigDigest_manifest_list_witness :
  let env := Scenario.list_site in
  getConfigDigest env 2 Scenario.hub Scenario.repo (JStr "latest") Scenario.fresh =
    (Returned (JStr "sha256:abc"),
     snd (getManifestResponse env Scenario.hub Scenario.repo (JStr "sha256:111")
            (snd (getManifestResponse env Scenario.hub Scenario.repo (JStr "latest")
                    Scenario.fresh)))).
Proof.
  intros env.
  refine (proj2 (getConfigDigest_manifest_list env 0 Scenario.hub Scenario.repo
                   (JStr "latest") Scenario.fresh
                   (Scenario.ok (Scenario.stringify
                      (Scenario.manifest_list ["sha256:111"; "sha256:222"])))
                   _ (Scenario.manifest_list ["sha256:111"; "sha256:222"])
                   (JObj [("digest", JStr "sha256:111")])
                   [JObj [("digest", JStr "sha256:222")]]
                   (JStr "sha256:111") _ _ _ _ _ _)
                Scenario.good_manifest _ (Scenario.image_manifest "sha256:abc")
                _ _ _ _ _); evaluate.
Defined.

(** C4, at the input of the claim's example: the manifest list served for
    [latest] has no [manifests] field and [getConfigDigest] raises a
    [TypeError] where [null] is expected. *)
Theorem getConfigDigest_list_without_manifests_raises :
  fst (getConfigDigest
         (Scenario.image_site Scenario.other Scenario.good_token
            (Scenario.ok (Scenario.stringify Scenario.list_without_manifests))
            Scenario.good_blob)
         1 Scenario.other Scenario.repo (JStr "latest") Scenario.fresh)
  = Raised (TypeError "undefined").
Proof. evaluate. Qed.

(** ** [getLabels] and its cache *)

Lemma getLabels_hit env fuel registry repo tag s :
  Js.defined (packageCache.lookup cacheNamespace (cacheKey registry repo tag) s) = true ->
  getLabels env fuel registry repo tag s =
    (Returned (packageCache.lookup cacheNamespace (cacheKey registry repo tag) s), s).
Proof.
  intros H. unfold getLabels, bind, packageCache.get. rewrite H. reflexivity.
Qed.

Lemma getLabels_miss env fuel registry repo tag s :
  packageCache.lookup cacheNamespace (cacheKey registry repo tag) s = JUndefined ->
  getLabels env fuel registry repo tag s =
    try_catch (getLabels_try env fuel registry repo tag) (getLabels_catch registry) s.
Proof.
  intros H. unfold getLabels, bind, packageCache.get. rewrite H. reflexivity.
Qed.

Lemma lookup_live ns key s labels expiry :
  cache s !! (ns, key) = Some (mkEntry labels expiry) ->
  (now s < expiry)%Z ->
  packageCache.lookup ns key s = labels.
Proof.
  intros Hc Hlt. unfold packageCache.lookup. rewrite Hc. simpl.
  apply Z.ltb_lt in Hlt. rewrite Hlt. reflexivity.
Qed.

Lemma set_stores ns key v ttl s :
  cache (snd (packageCache.set ns key v ttl s)) !! (ns, key)
  = Some (mkEntry v (now s + ttl)).
Proof. simpl. apply lookup_insert_eq. Qed.

(** The path of [getLabels] that reaches the registry: the labels are
    whatever [config.Labels] holds, and that value is stored and returned. *)
Lemma getLabels_fetch env fuel registry repo tag s digest s1 h s2 res parsed config labels :
  let url := registry +:+ "/v2/" +:+ repo +:+ "/blobs/" +:+ String_ env digest in
  let opts := mkOptions no_rule (Some h) None in
  packageCache.lookup cacheNamespace (cacheKey registry repo tag) s = JUndefined ->
  getConfigDigest env fuel registry repo (JStr tag) s = (Returned digest, s1) ->
  Js.truthy digest = true ->
  getAuthHeaders env registry repo s1 = (Returned (Headers h), s2) ->
  http_get env (log s2) url opts = inr res ->
  JSON_parse env (res_body res) = inr parsed ->
  Js.get parsed "config" = inr config ->
  Js.get config "Labels" = inr labels ->
  getLabels env fuel registry repo tag s =
    (Returned labels,
     snd (packageCache.set cacheNamespace (cacheKey registry repo tag) labels
            cacheMinutes (record (HttpGet url opts) s2))).
Proof.
  intros url opts Hmiss Hd Ht Ha Hg Hp Hc Hl.
  rewrite (getLabels_miss _ _ _ _ _ _ Hmiss).
  apply try_catch_returned. unfold getLabels_try.
  rewrite (bind_returned _ _ _ _ _ Hd), Ht. simpl.
  rewrite (bind_returned _ _ _ _ _ Ha).
  fold url opts.
  assert (Hcall : http_get_call env url opts s2
                  = (Returned res, record (HttpGet url opts) s2)).
  { unfold http_get_call. rewrite Hg. reflexivity. }
  rewrite (bind_returned _ _ _ _ _ Hcall).
  rewrite (bind_lift_inr _ _ _ _ Hp), (bind_lift_inr _ _ _ _ Hc),
          (bind_lift_inr _ _ _ _ Hl).
  reflexivity.
Qed.

(** C7. Once the store that ends a [getLabels] fetch has put a mapping (the
    empty one included) under the key of (registry, repository, tag), any
    later call made before the 60 minutes are over, with that entry still in
    place, returns the mapping as stored and leaves the state as it found it:
    the log of requests does not grow. *)
Theorem getLabels_cached env fuel registry repo tag s0 labels s1 s2 :
  let key := (cacheNamespace, cacheKey registry repo tag) in
  packageCache.set cacheNamespace (cacheKey registry repo tag) labels cacheMinutes s0
    = (Returned tt, s1) ->
  Js.defined labels = true ->
  cache s2 !! key = cache s1 !! key ->
  (now s2 < now s0 + cacheMinutes)%Z ->
  getLabels env fuel registry repo tag s2 = (Returned labels, s2)
  /\ log (snd (getLabels env fuel registry repo tag s2)) = log s2.
Proof.
  intros key Hset Hdef Hsame Hlive.
  assert (Hs1 : s1 = snd (packageCache.set cacheNamespace
                            (cacheKey registry repo tag) labels cacheMinutes s0))
    by (rewrite Hset; reflexivity).
  assert (Hl : packageCache.lookup cacheNamespace (cacheKey registry repo tag) s2
               = labels).
  { apply lookup_live with (expiry := (now s0 + cacheMinutes)%Z); [|exact Hlive].
    fold key. rewrite Hsame, Hs1. apply set_stores. }
  assert (Hr : getLabels env fuel registry repo tag s2 = (Returned labels, s2)).
  { rewrite getLabels_hit; rewrite Hl; [reflexivity|exact Hdef]. }
  split; [exact Hr | rewrite Hr; reflexivity].
Qed.

Lemma getLabels_cached_witness :
  let env := Scenario.image_site Scenario.hub Scenario.good_token
               Scenario.good_manifest Scenario.empty_labels_blob in
  let first := getLabels env 1 Scenario.hub Scenario.repo "latest" Scenario.fresh in
  let later := mkState (cache (snd first)) 59 (log (snd first)) in
  fst first = Returned (JObj []) /\
  getLabels env 1 Scenario.hub Scenario.repo "latest" later = (Returned (JObj []), later).
Proof.
  intros env first later. split; [evaluate|].
  apply (getLabels_cached env 1 Scenario.hub Scenario.repo "latest"
           (mkState ∅ 0 (log (snd first))) (JObj []) (snd first) later); evaluate.
Defined.

(** After the 60 minutes the same call goes back to the registry. *)
Example getLabels_refetches_after_expiry :
  let env := Scenario.image_site Scenario.hub Scenario.good_token
               Scenario.good_manifest Scenario.empty_labels_blob in
  let first := getLabels env 1 Scenario.hub Scenario.repo "latest" Scenario.fresh in
  let later := mkState (cache (snd first)) 60 (log (snd first)) in
  length (log (snd first)) = 6 /\
  length (log (snd (getLabels env 1 Scenario.hub Scenario.repo "latest" later))) = 12.
Proof. split; evaluate. Qed.

(** C3, at a config blob whose [config] object has no [Labels] field: the
    call returns [undefined], not a mapping, and the value it stores is
    [undefined] too, which the next call reads as a miss and fetches again. *)
Theorem getLabels_absent_Labels_undefined :
  let env := Scenario.image_site Scenario.other Scenario.good_token
               Scenario.good_manifest Scenario.no_labels_blob in
  let first := getLabels env 1 Scenario.other Scenario.repo "latest" Scenario.fresh in
  let key := (cacheNamespace, cacheKey Scenario.other Scenario.repo "latest") in
  JSON_parse env (res_body Scenario.no_labels_blob) = inr (JObj [("config", JObj [])])
  /\ fst first = Returned JUndefined
  /\ cache (snd first) !! key = Some (mkEntry JUndefined 60)
  /\ length (log (snd first)) = 6
  /\ length (log (snd (getLabels env 1 Scenario.other Scenario.repo "latest"
                         (snd first)))) = 12.
Proof. repeat split; evaluate. Qed.

(** ** Error classification *)

Lemma statusCode_is_of err c n :
  err_statusCode err = Some c -> statusCode_is err n = Z.eqb c n.
Proof. intros H. unfold statusCode_is. rewrite H. reflexivity. Qed.

Lemma statusCode_not_ExternalHostError err c :
  err_statusCode err = Some c -> instanceof_ExternalHostError err = false.
Proof. destruct err; [reflexivity|discriminate]. Qed.

Lemma statusCode_5xx_inv err :
  statusCode_5xx err = true ->
  exists c, err_statusCode err = Some c /\ (500 <= c < 600)%Z.
Proof.
  unfold statusCode_5xx. destruct (err_statusCode err) as [c|]; [|discriminate].
  intros H. apply andb_true_iff in H as [H1 H2].
  exists c. split; [reflexivity|]. split; [now apply Z.leb_le|now apply Z.ltb_lt].
Qed.

Lemma statusCode_5xx_is err n :
  statusCode_5xx err = true -> (n < 500)%Z -> statusCode_is err n = false.
Proof.
  intros H Hn. destruct (statusCode_5xx_inv _ H) as (c & Hc & Hr).
  rewrite (statusCode_is_of _ _ _ Hc). apply Z.eqb_neq. lia.
Qed.

(** [getAuthHeaders]: a 429 that does not come from [quay.io]. *)
Lemma getAuthHeaders_catch_429 registry err s :
  err_statusCode err = Some 429%Z ->
  field_is (err_host err) "quay.io" = false ->
  getAuthHeaders_catch registry err s =
    (if Str.endsWith registry "docker.io"
     then Raised (ExternalHostError err) else Returned HeadersNull, s).
Proof.
  intros Hc Hq. unfold getAuthHeaders_catch.
  rewrite Hq, !(statusCode_is_of _ _ _ Hc). simpl.
  unfold statusCode_5xx. rewrite Hc. simpl.
  destruct (Str.endsWith registry "docker.io");
    [rewrite andb_true_r | rewrite andb_false_r];
    destruct (String.eqb (err_name err) "RequestError");
    destruct (String.eqb (err_message err) HOST_DISABLED); reflexivity.
Qed.

(** [getAuthHeaders]: a 5xx that does not come from [quay.io]. *)
Lemma getAuthHeaders_catch_5xx registry err s :
  statusCode_5xx err = true ->
  field_is (err_host err) "quay.io" = false ->
  getAuthHeaders_catch registry err s = (Raised (ExternalHostError err), s).
Proof.
  intros Hc Hq. unfold getAuthHeaders_catch.
  rewrite Hq, !(statusCode_5xx_is _ _ Hc), Hc by lia. simpl.
  destruct (String.eqb (err_name err) "RequestError" && Str.endsWith registry "docker.io");
    reflexivity.
Qed.

Lemma getManifestResponse_catch_429 registry err s :
  err_statusCode err = Some 429%Z ->
  getManifestResponse_catch registry err s =
    (if Str.endsWith registry "docker.io"
     then Raised (ExternalHostError err) else Returned None, s).
Proof.
  intros Hc. unfold getManifestResponse_catch.
  rewrite (statusCode_not_ExternalHostError _ _ Hc), !(statusCode_is_of _ _ _ Hc).
  simpl. unfold statusCode_5xx. rewrite Hc. simpl.
  destruct (Str.endsWith registry "docker.io"); [reflexivity|].
  destruct (field_is (err_code err) "ETIMEDOUT"); reflexivity.
Qed.

Lemma getManifestResponse_catch_5xx registry err s :
  statusCode_5xx err = true ->
  getManifestResponse_catch registry err s = (Raised (ExternalHostError err), s).
Proof.
  intros Hc. unfold getManifestResponse_catch.
  destruct (statusCode_5xx_inv _ Hc) as (c & Hs & Hr).
  rewrite (statusCode_not_ExternalHostError _ _ Hs).
  rewrite !(statusCode_5xx_is _ _ Hc), Hc by lia. reflexivity.
Qed.

Lemma getManifestResponse_catch_ExternalHostError registry err s :
  instanceof_ExternalHostError err = true ->
  getManifestResponse_catch registry err s = (Raised err, s).
Proof. intros H. unfold getManifestResponse_catch. rewrite H. reflexivity. Qed.

(** [getLabels] re-raises an [ExternalHostError] and answers [{}] to
    everything else. *)
Lemma getLabels_catch_ExternalHostError registry err s :
  instanceof_ExternalHostError err = true ->
  getLabels_catch registry err s = (Raised err, s).
Proof. intros H. unfold getLabels_catch. rewrite H. reflexivity. Qed.

Lemma getLabels_catch_other registry err s :
  instanceof_ExternalHostError err = false ->
  getLabels_catch registry err s = (Returned (JObj []), s).
Proof.
  intros H. unfold getLabels_catch. rewrite H.
  repeat match goal with
         | |- context [if ?b then _ else _] => destruct b
         end; reflexivity.
Qed.

(** The handler of [getAuthHeaders] raises nothing but [ExternalHostError]. *)
Lemma getAuthHeaders_catch_raises registry err s x s' :
  getAuthHeaders_catch registry err s = (Raised x, s') ->
  x = ExternalHostError err /\ s' = s.
Proof.
  unfold getAuthHeaders_catch.
  repeat match goal with
         | |- context [if ?b then _ else _] => destruct b
         end; unfold ret, throw; intros [= <- <-]; auto.
Qed.

Lemma getAuthHeaders_raises env registry repo s x s' :
  getAuthHeaders env registry repo s = (Raised x, s') ->
  instanceof_ExternalHostError x = true.
Proof.
  unfold getAuthHeaders, try_catch.
  destruct (getAuthHeaders_try env registry repo s) as [[a|err|] s0];
    try discriminate.
  intros H. apply getAuthHeaders_catch_raises in H as [-> _]. reflexivity.
Qed.

(** Calls made inside the [try] blocks. *)
Lemma http_get_call_inl env url opts s err :
  http_get env (log s) url opts = inl err ->
  http_get_call env url opts s = (Raised err, record (HttpGet url opts) s).
Proof. intros H. unfold http_get_call. rewrite H. reflexivity. Qed.

Lemma http_get_call_inr env url opts s res :
  http_get env (log s) url opts = inr res ->
  http_get_call env url opts s = (Returned res, record (HttpGet url opts) s).
Proof. intros H. unfold http_get_call. rewrite H. reflexivity. Qed.

Lemma getManifestResponse_try_auth_raised env registry repo tag s err s' :
  getAuthHeaders env registry repo s = (Raised err, s') ->
  getManifestResponse_try env registry repo tag s = (Raised err, s').
Proof. intros H. unfold getManifestResponse_try. now rewrite (bind_raised _ _ _ _ _ H). Qed.

Lemma getConfigDigest_manifest_raised env fuel registry repo tag s err s' :
  getManifestResponse env registry repo tag s = (Raised err, s') ->
  getConfigDigest env (S fuel) registry repo tag s = (Raised err, s').
Proof. intros H. simpl. now rewrite (bind_raised _ _ _ _ _ H). Qed.

Lemma getLabels_try_digest_raised env fuel registry repo tag s err s' :
  getConfigDigest env fuel registry repo (JStr tag) s = (Raised err, s') ->
  getLabels_try env fuel registry repo tag s = (Raised err, s').
Proof. intros H. unfold getLabels_try. now rewrite (bind_raised _ _ _ _ _ H). Qed.

Lemma getLabels_try_auth_raised env fuel registry repo tag s digest s1 err s' :
  getConfigDigest env fuel registry repo (JStr tag) s = (Returned digest, s1) ->
  Js.truthy digest = true ->
  getAuthHeaders env registry repo s1 = (Raised err, s') ->
  getLabels_try env fuel registry repo tag s = (Raised err, s').
Proof.
  intros Hd Ht Ha. unfold getLabels_try.
  rewrite (bind_returned _ _ _ _ _ Hd), Ht. simpl.
  now rewrite (bind_raised _ _ _ _ _ Ha).
Qed.

Lemma getManifestResponse_try_request_raised env registry repo tag s h s1 err :
  let url := registry +:+ "/v2/" +:+ repo +:+ "/manifests/" +:+ String_ env tag in
  let opts := mkOptions no_rule (Some (<[ "accept" := manifest_accept ]> h)) None in
  getAuthHeaders env registry repo s = (Returned (Headers h), s1) ->
  http_get env (log s1) url opts = inl err ->
  getManifestResponse_try env registry repo tag s
  = (Raised err, record (HttpGet url opts) s1).
Proof.
  intros url opts Ha Hg. unfold getManifestResponse_try.
  rewrite (bind_returned _ _ _ _ _ Ha). fold url opts.
  now rewrite (bind_raised _ _ _ _ _ (http_get_call_inl _ _ _ _ _ Hg)).
Qed.

Lemma getLabels_try_blob_raised env fuel registry repo tag s digest s1 h s2 err :
  let url := registry +:+ "/v2/" +:+ repo +:+ "/blobs/" +:+ String_ env digest in
  let opts := mkOptions no_rule (Some h) None in
  getConfigDigest env fuel registry repo (JStr tag) s = (Returned digest, s1) ->
  Js.truthy digest = true ->
  getAuthHeaders env registry repo s1 = (Returned (Headers h), s2) ->
  http_get env (log s2) url opts = inl err ->
  getLabels_try env fuel registry repo tag s
  = (Raised err, record (HttpGet url opts) s2).
Proof.
  intros url opts Hd Ht Ha Hg. unfold getLabels_try.
  rewrite (bind_returned _ _ _ _ _ Hd), Ht. simpl.
  rewrite (bind_returned _ _ _ _ _ Ha). fold url opts.
  now rewrite (bind_raised _ _ _ _ _ (http_get_call_inl _ _ _ _ _ Hg)).
Qed.

(** What the manifest request raises with status 429 is host-fatal exactly
    for a registry whose name ends in [docker.io]. *)
Lemma manifest_request_429 env registry repo tag s h s1 err :
  let url := registry +:+ "/v2/" +:+ repo +:+ "/manifests/" +:+ String_ env tag in
  let opts := mkOptions no_rule (Some (<[ "accept" := manifest_accept ]> h)) None in
  getAuthHeaders env registry repo s = (Returned (Headers h), s1) ->
  http_get env (log s1) url opts = inl err ->
  err_statusCode err = Some 429%Z ->
  getManifestResponse env registry repo tag s =
    (if Str.endsWith registry "docker.io"
     then Raised (ExternalHostError err) else Returned None,
     record (HttpGet url opts) s1).
Proof.
  intros url opts Ha Hg Hc. unfold getManifestResponse.
  rewrite (try_catch_raised _ _ _ _ _
             (getManifestResponse_try_request_raised _ _ _ _ _ _ _ _ Ha Hg)).
  now apply getManifestResponse_catch_429.
Qed.

(** What the blob request raises, unless it is an [ExternalHostError]
    already, ends in [getLabels] returning [{}] with nothing stored. *)
Lemma blob_request_error_swallowed env fuel registry repo tag s digest s1 h s2 err :
  let url := registry +:+ "/v2/" +:+ repo +:+ "/blobs/" +:+ String_ env digest in
  let opts := mkOptions no_rule (Some h) None in
  packageCache.lookup cacheNamespace (cacheKey registry repo tag) s = JUndefined ->
  getConfigDigest env fuel registry repo (JStr tag) s = (Returned digest, s1) ->
  Js.truthy digest = true ->
  getAuthHeaders env registry repo s1 = (Returned (Headers h), s2) ->
  http_get env (log s2) url opts = inl err ->
  instanceof_ExternalHostError err = false ->
  getLabels env fuel registry repo tag s
  = (Returned (JObj []), record (HttpGet url opts) s2).
Proof.
  intros url opts Hmiss Hd Ht Ha Hg He.
  rewrite (getLabels_miss _ _ _ _ _ _ Hmiss).
  rewrite (try_catch_raised _ _ _ _ _
             (getLabels_try_blob_raised _ _ _ _ _ _ _ _ _ _ _ Hd Ht Ha Hg)).
  now apply getLabels_catch_other.
Qed.

(** The probe is sent with [throwHttpErrors: false]: a 429 answer is a
    response like any other, and without a challenge in it the registry
    counts as open. *)
Example probe_429_is_a_response :
  let env := Scenario.make [(Scenario.hub +:+ "/v2/", Scenario.status 429)] [] []
               (fun _ => no_rule) in
  fst (getAuthHeaders env Scenario.hub Scenario.repo Scenario.fresh)
  = Returned (Headers ∅).
Proof. evaluate. Qed.

(** C5. An [ExternalHostError] raised by an inner call reaches the caller of
    every enclosing operation as the same value, from the same state:
    [getManifestResponse] re-throws what [getAuthHeaders] or its own request
    raised, [getConfigDigest] has no handler and passes on what
    [getManifestResponse] or its recursive call raised, and [getLabels]
    re-throws what [getConfigDigest], [getAuthHeaders] or the blob request
    raised. *)
Theorem ExternalHostError_passes_through
        env fuel registry repo tag tagv s err s' :
  instanceof_ExternalHostError err = true ->
  (getAuthHeaders env registry repo s = (Raised err, s') ->
   getManifestResponse env registry repo tagv s = (Raised err, s'))
  /\ (getManifestResponse_try env registry repo tagv s = (Raised err, s') ->
      getManifestResponse env registry repo tagv s = (Raised err, s'))
  /\ (getManifestResponse env registry repo tagv s = (Raised err, s') ->
      getConfigDigest env (S fuel) registry repo tagv s = (Raised err, s'))
  /\ (forall response s1 manifest first rest digest,
        getManifestResponse env registry repo tagv s = (Returned (Some response), s1) ->
        JSON_parse env (res_body response) = inr manifest ->
        Manifest.schemaVersion_is_2 manifest = true ->
        Manifest.has_mediaType manifest MediaType.manifestListV2 = true ->
        Manifest.entries manifest = Some (first :: rest) ->
        Js.get first "digest" = inr digest ->
        getConfigDigest env fuel registry repo digest s1 = (Raised err, s') ->
        getConfigDigest env (S fuel) registry repo tagv s = (Raised err, s'))
  /\ (packageCache.lookup cacheNamespace (cacheKey registry repo tag) s = JUndefined ->
      (getLabels_try env fuel registry repo tag s = (Raised err, s') ->
       getLabels env fuel registry repo tag s = (Raised err, s'))
      /\ (getConfigDigest env fuel registry repo (JStr tag) s = (Raised err, s') ->
          getLabels env fuel registry repo tag s = (Raised err, s'))
      /\ (forall digest s1,
            getConfigDigest env fuel registry repo (JStr tag) s = (Returned digest, s1) ->
            Js.truthy digest = true ->
            getAuthHeaders env registry repo s1 = (Raised err, s') ->
            getLabels env fuel registry repo tag s = (Raised err, s'))).
Proof.
  intros He.
  assert (Hm : getManifestResponse_try env registry repo tagv s = (Raised err, s') ->
               getManifestResponse env registry repo tagv s = (Raised err, s')).
  { intros H. unfold getManifestResponse. rewrite (try_catch_raised _ _ _ _ _ H).
    now apply getManifestResponse_catch_ExternalHostError. }
  split; [|split; [|split; [|split]]].
  - intros H. apply Hm. now apply getManifestResponse_try_auth_raised.
  - exact Hm.
  - apply getConfigDigest_manifest_raised.
  - intros response s1 manifest first rest digest H1 H2 H3 H4 H5 H6 H7.
    now rewrite (getConfigDigest_list_step _ _ _ _ _ _ _ _ _ _ _ _ H1 H2 H3 H4 H5 H6).
  - intros Hmiss.
    assert (Hl : getLabels_try env fuel registry repo tag s = (Raised err, s') ->
                 getLabels env fuel registry repo tag s = (Raised err, s')).
    { intros H.
      rewrite (getLabels_miss _ _ _ _ _ _ Hmiss), (try_catch_raised _ _ _ _ _ H).
      now apply getLabels_catch_ExternalHostError. }
    split; [exact Hl|split].
    + intros H. apply Hl. now apply getLabels_try_digest_raised.
    + intros digest s1 H1 H2 H3. apply Hl.
      exact (getLabels_try_auth_raised _ _ _ _ _ _ _ _ _ _ H1 H2 H3).
Qed.

Lemma ExternalHostError_passes_through_witness :
  let env := Scenario.broken_list_site in
  let listed := getManifestResponse env Scenario.hub Scenario.repo (JStr "latest")
                  Scenario.fresh in
  let inner := getManifestResponse env Scenario.hub Scenario.repo (JStr "sha256:111")
                 (snd listed) in
  fst inner = Raised (ExternalHostError (Scenario.HTTPError 500))
  /\ getConfigDigest env 2 Scenario.hub Scenario.repo (JStr "latest") Scenario.fresh
     = (Raised (ExternalHostError (Scenario.HTTPError 500)), snd inner)
  /\ getLabels env 2 Scenario.hub Scenario.repo "latest" Scenario.fresh
     = (Raised (ExternalHostError (Scenario.HTTPError 500)), snd inner).
Proof.
  intros env listed inner.
  assert (Hi : inner = (Raised (ExternalHostError (Scenario.HTTPError 500)), snd inner))
    by evaluate.
  assert (Hinner : getConfigDigest env 1 Scenario.hub Scenario.repo (JStr "sha256:111")
                     (snd listed)
                   = (Raised (ExternalHostError (Scenario.HTTPError 500)), snd inner)).
  { apply (ExternalHostError_passes_through env 0 Scenario.hub Scenario.repo "latest"
             (JStr "sha256:111") (snd listed)
             (ExternalHostError (Scenario.HTTPError 500)) (snd inner) eq_refl).
    exact Hi. }
  assert (Houter : getConfigDigest env 2 Scenario.hub Scenario.repo (JStr "latest")
                     Scenario.fresh
                   = (Raised (ExternalHostError (Scenario.HTTPError 500)), snd inner)).
  { refine (proj1 (proj2 (proj2 (proj2
              (ExternalHostError_passes_through env 1 Scenario.hub Scenario.repo "latest"
                 (JStr "latest") Scenario.fresh
                 (ExternalHostError (Scenario.HTTPError 500)) (snd inner) eq_refl))))
              (Scenario.ok (Scenario.stringify
                 (Scenario.manifest_list ["sha256:111"; "sha256:222"])))
              (snd listed) (Scenario.manifest_list ["sha256:111"; "sha256:222"])
              (JObj [("digest", JStr "sha256:111")])
              [JObj [("digest", JStr "sha256:222")]]
              (JStr "sha256:111") _ _ _ _ _ _ Hinner); evaluate. }
  split; [evaluate|]. split; [exact Houter|].
  destruct (ExternalHostError_passes_through env 2 Scenario.hub Scenario.repo "latest"
              (JStr "latest") Scenario.fresh
              (ExternalHostError (Scenario.HTTPError 500)) (snd inner) eq_refl)
    as (_ & _ & _ & _ & Hlabels).
  destruct Hlabels as (_ & Hdigest & _); [evaluate|].
  exact (Hdigest Houter).
Defined.

(** ** Status 429 *)

(** C1 fails as stated. The default registry answers the blob request with
    429 and [getLabels] returns [{}]; a registry that is not the default one,
    but whose name ends in [docker.io], answers the manifest request with 429
    and the error is raised as host-fatal. *)
Lemma status_429_counterexample :
  (let env := Scenario.image_site Scenario.hub Scenario.good_token
                Scenario.good_manifest (Scenario.status 429) in
   Scenario.hub = defaultRegistryUrl
   /\ Scenario.answer (Scenario.serve
        (Scenario.site Scenario.hub Scenario.repo
           (Scenario.challenge 401 (Scenario.bearer_header Scenario.hub))
           Scenario.good_token [("latest", Scenario.good_manifest)]
           [("sha256:abc", Scenario.status 429)]))
        (Scenario.blob_url Scenario.hub Scenario.repo "sha256:abc")
        (mkOptions no_rule (Some {[ "authorization" := "Bearer t0k3n" ]}) None)
      = inl (Scenario.HTTPError 429)
   /\ fst (getLabels env 1 Scenario.hub Scenario.repo "latest" Scenario.fresh)
      = Returned (JObj []))
  /\ (let env := Scenario.image_site Scenario.lookalike Scenario.good_token
                   (Scenario.status 429) Scenario.good_blob in
      Scenario.lookalike <> defaultRegistryUrl
      /\ fst (getManifestResponse env Scenario.lookalike Scenario.repo (JStr "latest")
                Scenario.fresh)
         = Raised (ExternalHostError (Scenario.HTTPError 429))).
Proof.
  split; intros env; repeat split; try evaluate. discriminate.
Qed.

(** C1, amended. An error of status 429 raised in the [try] block of
    [getAuthHeaders] (the check of Basic headers, the token exchange) by a
    host other than [quay.io], or in the [try] block of
    [getManifestResponse] (the manifest request), is raised as
    [ExternalHostError] when the registry name ends in [docker.io], as that of
    the default registry does, and gives [null] when it does not. Raised in
    the [try] block of [getLabels] (the blob request) it is never passed on:
    [getLabels] returns [{}] whatever the registry. *)
Theorem status_429_classification env fuel registry repo tag tagv s err s' :
  err_statusCode err = Some 429%Z ->
  (getAuthHeaders_try env registry repo s = (Raised err, s') ->
   field_is (err_host err) "quay.io" = false ->
   getAuthHeaders env registry repo s =
     (if Str.endsWith registry "docker.io"
      then Raised (ExternalHostError err) else Returned HeadersNull, s'))
  /\ (getManifestResponse_try env registry repo tagv s = (Raised err, s') ->
      getManifestResponse env registry repo tagv s =
        (if Str.endsWith registry "docker.io"
         then Raised (ExternalHostError err) else Returned None, s'))
  /\ (packageCache.lookup cacheNamespace (cacheKey registry repo tag) s = JUndefined ->
      getLabels_try env fuel registry repo tag s = (Raised err, s') ->
      getLabels env fuel registry repo tag s = (Returned (JObj []), s'))
  /\ Str.endsWith defaultRegistryUrl "docker.io" = true.
Proof.
  intros Hc. split; [|split; [|split]].
  - intros H Hq. unfold getAuthHeaders.
    rewrite (try_catch_raised _ _ _ _ _ H). now apply getAuthHeaders_catch_429.
  - intros H. unfold getManifestResponse.
    rewrite (try_catch_raised _ _ _ _ _ H). now apply getManifestResponse_catch_429.
  - intros Hmiss H.
    rewrite (getLabels_miss _ _ _ _ _ _ Hmiss), (try_catch_raised _ _ _ _ _ H).
    apply getLabels_catch_other. eapply statusCode_not_ExternalHostError; eauto.
  - reflexivity.
Qed.

Lemma status_429_classification_witness :
  let e429 := Scenario.HTTPError 429 in
  let at_token registry :=
    Scenario.image_site registry (Scenario.status 429) Scenario.good_manifest
      Scenario.good_blob in
  let at_manifest registry :=
    Scenario.image_site registry Scenario.good_token (Scenario.status 429)
      Scenario.good_blob in
  let at_blob registry :=
    Scenario.image_site registry Scenario.good_token Scenario.good_manifest
      (Scenario.status 429) in
  fst (getAuthHeaders (at_token Scenario.hub) Scenario.hub Scenario.repo Scenario.fresh)
    = Raised (ExternalHostError e429)
  /\ fst (getAuthHeaders (at_token Scenario.other) Scenario.other Scenario.repo
            Scenario.fresh)
     = Returned HeadersNull
  /\ fst (getManifestResponse (at_manifest Scenario.hub) Scenario.hub Scenario.repo
            (JStr "latest") Scenario.fresh)
     = Raised (ExternalHostError e429)
  /\ fst (getManifestResponse (at_manifest Scenario.other) Scenario.other Scenario.repo
            (JStr "latest") Scenario.fresh)
     = Returned None
  /\ fst (getLabels (at_blob Scenario.hub) 1 Scenario.hub Scenario.repo "latest"
            Scenario.fresh)
     = Returned (JObj []).
Proof.
  intros e429 at_token at_manifest at_blob.
  assert (Hc : err_statusCode e429 = Some 429%Z) by reflexivity.
  split; [|split; [|split; [|split]]].
  - destruct (status_429_classification (at_token Scenario.hub) 1 Scenario.hub
                Scenario.repo "latest" (JStr "latest") Scenario.fresh e429
                (snd (getAuthHeaders_try (at_token Scenario.hub) Scenario.hub
                        Scenario.repo Scenario.fresh)) Hc) as (Ha & _).
    rewrite Ha; evaluate.
  - destruct (status_429_classification (at_token Scenario.other) 1 Scenario.other
                Scenario.repo "latest" (JStr "latest") Scenario.fresh e429
                (snd (getAuthHeaders_try (at_token Scenario.other) Scenario.other
                        Scenario.repo Scenario.fresh)) Hc) as (Ha & _).
    rewrite Ha; evaluate.
  - destruct (status_429_classification (at_manifest Scenario.hub) 1 Scenario.hub
                Scenario.repo "latest" (JStr "latest") Scenario.fresh e429
                (snd (getManifestResponse_try (at_manifest Scenario.hub) Scenario.hub
                        Scenario.repo (JStr "latest") Scenario.fresh)) Hc)
      as (_ & Hm & _).
    rewrite Hm; evaluate.
  - destruct (status_429_classification (at_manifest Scenario.other) 1 Scenario.other
                Scenario.repo "latest" (JStr "latest") Scenario.fresh e429
                (snd (getManifestResponse_try (at_manifest Scenario.other)
                        Scenario.other Scenario.repo (JStr "latest") Scenario.fresh))
                Hc) as (_ & Hm & _).
    rewrite Hm; evaluate.
  - destruct (status_429_classification (at_blob Scenario.hub) 1 Scenario.hub
                Scenario.repo "latest" (JStr "latest") Scenario.fresh e429
                (snd (getLabels_try (at_blob Scenario.hub) 1 Scenario.hub
                        Scenario.repo "latest" Scenario.fresh)) Hc)
      as (_ & _ & Hl & _).
    rewrite Hl; evaluate.
Defined.

(** ** Status 5xx *)

(** C2 fails as stated. A registry answers the blob request with 500 and
    [getLabels] returns [{}]; and [getLabels] does raise in another case, a
    429 of the default registry on the manifest request. *)
Lemma status_5xx_counterexample :
  (let env := Scenario.image_site Scenario.other Scenario.good_token
                Scenario.good_manifest (Scenario.status 500) in
   Scenario.answer (Scenario.serve
        (Scenario.site Scenario.other Scenario.repo
           (Scenario.challenge 401 (Scenario.bearer_header Scenario.other))
           Scenario.good_token [("latest", Scenario.good_manifest)]
           [("sha256:abc", Scenario.status 500)]))
        (Scenario.blob_url Scenario.other Scenario.repo "sha256:abc")
        (mkOptions no_rule (Some {[ "authorization" := "Bearer t0k3n" ]}) None)
      = inl (Scenario.HTTPError 500)
   /\ fst (getLabels env 1 Scenario.other Scenario.repo "latest" Scenario.fresh)
      = Returned (JObj []))
  /\ (let env := Scenario.image_site Scenario.hub Scenario.good_token
                   (Scenario.status 429) Scenario.good_blob in
      fst (getLabels env 1 Scenario.hub Scenario.repo "latest" Scenario.fresh)
      = Raised (ExternalHostError (Scenario.HTTPError 429))).
Proof.
  split; intros env; repeat split; evaluate.
Qed.

Lemma getLabels_raises_iff env fuel registry repo tag s x s' :
  getLabels env fuel registry repo tag s = (Raised x, s') <->
  packageCache.lookup cacheNamespace (cacheKey registry repo tag) s = JUndefined
  /\ getLabels_try env fuel registry repo tag s = (Raised x, s')
  /\ instanceof_ExternalHostError x = true.
Proof.
  split.
  - intros H.
    destruct (Js.defined (packageCache.lookup cacheNamespace
                            (cacheKey registry repo tag) s)) eqn:Hd.
    + rewrite (getLabels_hit _ _ _ _ _ _ Hd) in H. discriminate.
    + assert (Hmiss : packageCache.lookup cacheNamespace
                        (cacheKey registry repo tag) s = JUndefined).
      { destruct (packageCache.lookup _ _ s); try discriminate. reflexivity. }
      split; [exact Hmiss|].
      rewrite (getLabels_miss _ _ _ _ _ _ Hmiss) in H. unfold try_catch in H.
      destruct (getLabels_try env fuel registry repo tag s) as [[a|err|] s0];
        try discriminate.
      destruct (instanceof_ExternalHostError err) eqn:He.
      * rewrite (getLabels_catch_ExternalHostError _ _ _ He) in H.
        injection H as <- <-. auto.
      * rewrite (getLabels_catch_other _ _ _ He) in H. discriminate.
  - intros (Hmiss & H & He).
    rewrite (getLabels_miss _ _ _ _ _ _ Hmiss), (try_catch_raised _ _ _ _ _ H).
    now apply getLabels_catch_ExternalHostError.
Qed.

(** C2, amended. An error of status 500 to 599 raised in the [try] block of
    [getAuthHeaders] by a host other than [quay.io], or in the [try] block of
    [getManifestResponse], is raised as [ExternalHostError] for every
    registry. Raised in the [try] block of [getLabels] (the blob request) it
    is not passed on: [getLabels] returns [{}]. [getLabels] raises exactly
    when its cache misses and its [try] block raises an [ExternalHostError],
    which it passes on as it is. *)
Theorem status_5xx_classification env fuel registry repo tag tagv s err s' :
  statusCode_5xx err = true ->
  (getAuthHeaders_try env registry repo s = (Raised err, s') ->
   field_is (err_host err) "quay.io" = false ->
   getAuthHeaders env registry repo s = (Raised (ExternalHostError err), s'))
  /\ (getManifestResponse_try env registry repo tagv s = (Raised err, s') ->
      getManifestResponse env registry repo tagv s = (Raised (ExternalHostError err), s'))
  /\ (packageCache.lookup cacheNamespace (cacheKey registry repo tag) s = JUndefined ->
      getLabels_try env fuel registry repo tag s = (Raised err, s') ->
      getLabels env fuel registry repo tag s = (Returned (JObj []), s'))
  /\ (forall x s'',
        getLabels env fuel registry repo tag s = (Raised x, s'') <->
        packageCache.lookup cacheNamespace (cacheKey registry repo tag) s = JUndefined
        /\ getLabels_try env fuel registry repo tag s = (Raised x, s'')
        /\ instanceof_ExternalHostError x = true).
Proof.
  intros Hc. split; [|split; [|split]].
  - intros H Hq. unfold getAuthHeaders.
    rewrite (try_catch_raised _ _ _ _ _ H). now apply getAuthHeaders_catch_5xx.
  - intros H. unfold getManifestResponse.
    rewrite (try_catch_raised _ _ _ _ _ H). now apply getManifestResponse_catch_5xx.
  - intros Hmiss H.
    rewrite (getLabels_miss _ _ _ _ _ _ Hmiss), (try_catch_raised _ _ _ _ _ H).
    apply getLabels_catch_other.
    destruct (statusCode_5xx_inv _ Hc) as (c & Hs & _).
    eapply statusCode_not_ExternalHostError; eauto.
  - intros x s''. apply getLabels_raises_iff.
Qed.

Lemma status_5xx_classification_witness :
  let e503 := Scenario.HTTPError 503 in
  let at_token :=
    Scenario.image_site Scenario.other (Scenario.status 503) Scenario.good_manifest
      Scenario.good_blob in
  let at_manifest :=
    Scenario.image_site Scenario.other Scenario.good_token (Scenario.status 503)
      Scenario.good_blob in
  let at_blob :=
    Scenario.image_site Scenario.other Scenario.good_token Scenario.good_manifest
      (Scenario.status 503) in
  fst (getAuthHeaders at_token Scenario.other Scenario.repo Scenario.fresh)
    = Raised (ExternalHostError e503)
  /\ fst (getManifestResponse at_manifest Scenario.other Scenario.repo
            (JStr "latest") Scenario.fresh)
     = Raised (ExternalHostError e503)
  /\ fst (getLabels at_blob 1 Scenario.other Scenario.repo "latest" Scenario.fresh)
     = Returned (JObj [])
  /\ fst (getLabels at_manifest 1 Scenario.other Scenario.repo "latest" Scenario.fresh)
     = Raised (ExternalHostError e503).
Proof.
  intros e503 at_token at_manifest at_blob.
  assert (Hc : statusCode_5xx e503 = true) by reflexivity.
  split; [|split; [|split]].
  - destruct (status_5xx_classification at_token 1 Scenario.other
                Scenario.repo "latest" (JStr "latest") Scenario.fresh e503
                (snd (getAuthHeaders_try at_token Scenario.other
                        Scenario.repo Scenario.fresh)) Hc) as (Ha & _).
    rewrite Ha; evaluate.
  - destruct (status_5xx_classification at_manifest 1 Scenario.other
                Scenario.repo "latest" (JStr "latest") Scenario.fresh e503
                (snd (getManifestResponse_try at_manifest Scenario.other
                        Scenario.repo (JStr "latest") Scenario.fresh)) Hc)
      as (_ & Hm & _).
    rewrite Hm; evaluate.
  - destruct (status_5xx_classification at_blob 1 Scenario.other
                Scenario.repo "latest" (JStr "latest") Scenario.fresh e503
                (snd (getLabels_try at_blob 1 Scenario.other
                        Scenario.repo "latest" Scenario.fresh)) Hc)
      as (_ & _ & Hl & _).
    rewrite Hl; evaluate.
  - destruct (status_5xx_classification at_manifest 1 Scenario.other
                Scenario.repo "latest" (JStr "latest") Scenario.fresh e503
                (snd (getLabels at_manifest 1 Scenario.other
                        Scenario.repo "latest" Scenario.fresh)) Hc)
      as (_ & _ & _ & Hiff).
    pose proof (proj2 (Hiff (ExternalHostError e503)
                            (snd (getLabels at_manifest 1 Scenario.other
                                    Scenario.repo "latest" Scenario.fresh)))) as Hr.
    rewrite Hr; [reflexivity|]. repeat split; evaluate.
Defined.

(** ** Basic challenge without credentials *)

(** C10 fails as stated. The registry challenges with Basic, host rules hold
    no credentials and the host is not an ECR one. When the check of the
    (absent) headers is answered 401, as the probe was, [getAuthHeaders]
    returns [null], not [undefined]; when it is answered 503,
    [getAuthHeaders] raises and so does [getManifestResponse]. *)
Lemma basic_without_credentials_counterexample :
  let rules := fun _ : string => no_rule in
  let env code := Scenario.basic_site Scenario.other code rules in
  (WWW_Authenticate (env 401%Z) "Basic realm=registry"
     = inr (mkChallenge "Basic" (Some "registry") None)
   /\ Str.toUpperCase "Basic" = "BASIC"
   /\ credentials_of (rules (Scenario.other +:+ "/v2/")) = None
   /\ EcrRegex.test Scenario.other = false)
  /\ fst (getAuthHeaders (env 401%Z) Scenario.other Scenario.repo Scenario.fresh)
     = Returned HeadersNull
  /\ fst (getManifestResponse (env 503%Z) Scenario.other Scenario.repo (JStr "latest")
            Scenario.fresh)
     = Raised (ExternalHostError (Scenario.HTTPError 503)).
Proof.
  intros rules env. repeat split; evaluate.
Qed.

(** C10, amended. The registry challenges with Basic (in any letter case),
    host rules hold no credentials for it, the host is not an ECR one, and
    the check of the headers is answered without an error. Then
    [getAuthHeaders] returns the [headers] field nothing was assigned to,
    [undefined], which is neither [{}] nor [null], and
    [getManifestResponse] takes it for missing auth and returns [null]
    without a manifest request. *)
Theorem getAuthHeaders_basic_without_credentials
        env registry repo tagv s probe header ch check :
  let url := registry +:+ "/v2/" in
  let found := hostRules_find env id url in
  let opts := mkOptions (mkHostRule None None (insecureRegistry found)) None None in
  let s1 := record (HttpGet url (mkOptions no_rule None (Some false))) s in
  let s2 := record (HttpGet url opts) s1 in
  http_get env (log s) url (mkOptions no_rule None (Some false)) = inr probe ->
  res_headers probe !! "www-authenticate" = Some header ->
  WWW_Authenticate env header = inr ch ->
  Str.toUpperCase (scheme ch) = "BASIC" ->
  credentials_of found = None ->
  EcrRegex.test registry = false ->
  http_get env (log s1) url opts = inr check ->
  getAuthHeaders env registry repo s = (Returned HeadersUndefined, s2)
  /\ HeadersUndefined <> Headers ∅
  /\ HeadersUndefined <> HeadersNull
  /\ getManifestResponse env registry repo tagv s = (Returned None, s2).
Proof.
  intros url found opts s1 s2 Hprobe Hheader Hparse Hscheme Hcred Hecr Hcheck.
  assert (Ha : getAuthHeaders env registry repo s = (Returned HeadersUndefined, s2)).
  { unfold getAuthHeaders. apply try_catch_returned. unfold getAuthHeaders_try.
    fold url. rewrite (bind_returned _ _ _ _ _ (http_get_call_inr _ _ _ _ _ Hprobe)).
    rewrite Hheader. rewrite (bind_lift_inr _ _ _ _ Hparse).
    unfold EcrRegex.test in Hecr.
    destruct (EcrRegex.exec registry); [discriminate|].
    fold found. rewrite Hcred.
    unfold bind at 1, ret at 1. fold s1.
    rewrite Hscheme, String.eqb_refl.
    fold opts.
    rewrite (bind_returned _ _ _ _ _ (http_get_call_inr _ _ _ _ _ Hcheck)).
    reflexivity. }
  repeat split; try discriminate; [exact Ha|].
  unfold getManifestResponse. apply try_catch_returned.
  unfold getManifestResponse_try. rewrite (bind_returned _ _ _ _ _ Ha). reflexivity.
Qed.

Lemma getAuthHeaders_basic_without_credentials_witness :
  let env := Scenario.basic_site Scenario.other 200 (fun _ => no_rule) in
  fst (getAuthHeaders env Scenario.other Scenario.repo Scenario.fresh)
    = Returned HeadersUndefined
  /\ fst (getManifestResponse env Scenario.other Scenario.repo (JStr "latest")
            Scenario.fresh)
     = Returned None.
Proof.
  intros env.
  destruct (getAuthHeaders_basic_without_credentials env Scenario.other Scenario.repo
              (JStr "latest") Scenario.fresh
              (Scenario.challenge 200 "Basic realm=registry") "Basic realm=registry"
              (mkChallenge "Basic" (Some "registry") None)
              (Scenario.challenge 200 "Basic realm=registry"))
    as (Ha & _ & _ & Hm); try evaluate.
  rewrite Ha, Hm. split; reflexivity.
Defined.

(** ** [getRegistryRepository] *)

Lemma split_head_tail sep s : exists h r, Str.split sep s = h :: r.
Proof.
  induction s as [|c t IH]; simpl; [eauto|].
  destruct (Ascii.eqb c sep); [eauto|].
  destruct IH as (h & r & ->). eauto.
Qed.

(** No segment of [split] holds the separator. *)
Lemma split_segments sep s x :
  In x (Str.split sep s) -> Str.includes x sep = false.
Proof.
  revert x. induction s as [|c t IH]; simpl; intros x.
  - intros [<-|[]]. reflexivity.
  - destruct (Ascii.eqb c sep) eqn:Hc.
    + intros [<-|Hin]; [reflexivity|auto].
    + destruct (split_head_tail sep t) as (h & r & Hs). rewrite Hs in *.
      intros [<-|Hin].
      * simpl. rewrite Hc. apply IH. now left.
      * apply IH. now right.
Qed.

Lemma startsWith_includes s c p :
  Str.startsWith s p = true -> Str.includes p c = true -> Str.includes s c = true.
Proof.
  unfold Str.startsWith. revert s.
  induction p as [|a p IH]; simpl; intros s Hp Hc; [discriminate|].
  destruct s as [|b s]; simpl in Hp; [discriminate|].
  destruct (Ascii.ascii_dec a b) as [->|]; [|discriminate].
  simpl. apply orb_true_iff in Hc as [Hc|Hc].
  - rewrite Hc. reflexivity.
  - rewrite (IH _ Hp Hc). apply orb_true_r.
Qed.

(** A string without a slash does not begin with a scheme. *)
Lemma has_scheme_slash s : Str.includes s "/" = false -> Url.has_scheme s = false.
Proof.
  intros H. unfold Url.has_scheme.
  destruct (Str.startsWith s "http://") eqn:H1.
  - rewrite (startsWith_includes _ "/" _ H1) in H by reflexivity. discriminate.
  - destruct (Str.startsWith s "https://") eqn:H2; [|reflexivity].
    rewrite (startsWith_includes _ "/" _ H2) in H by reflexivity. discriminate.
Qed.

Lemma includes_truthy s c : Str.includes s c = true -> Str.truthy s = true.
Proof. destruct s; [discriminate|reflexivity]. Qed.

Lemma downgrade_https s : Str.replace "https" "http" ("https://" +:+ s) = "http://" +:+ s.
Proof. reflexivity. Qed.

(** C9 fails as stated. A lookup name that begins with the host and path of
    the configured registry makes that URL the registry, path included; a
    first segment [docker.io] becomes [index.docker.io]; and a registry that
    host rules mark insecure gets the [http] scheme. *)
Lemma explicit_host_counterexample :
  let plain := Scenario.make [] [] [] (fun _ => no_rule) in
  let lax := Scenario.make [] [] [] (fun _ => mkHostRule None None (Some true)) in
  (Str.split "/" "my.registry/sub/foo" = ["my.registry"; "sub"; "foo"]
   /\ getRegistryRepository plain "my.registry/sub/foo" "https://my.registry/sub"
      = mkRegistryRepository "https://my.registry/sub" "foo")
  /\ getRegistryRepository plain "docker.io/renovate/renovate" defaultRegistryUrl
     = mkRegistryRepository "https://index.docker.io" "renovate/renovate"
  /\ getRegistryRepository lax "myregistry.example.com/foo/bar" defaultRegistryUrl
     = mkRegistryRepository "http://myregistry.example.com" "foo/bar".
Proof. intros plain lax. repeat split; evaluate. Qed.

(** C9, amended. The lookup name has at least two segments and its first
    segment contains a dot or a colon. Unless the lookup name begins with
    the host and path of a configured registry other than the default one
    (then that URL is the registry), the registry is the first segment,
    [docker.io] read as [index.docker.io], behind [https://], or behind
    [http://] when host rules mark it insecure; the repository is the other
    segments joined by slashes, with [library/] in front when the registry
    ends in [.docker.io] and one segment is left. *)
Theorem getRegistryRepository_explicit_host env lookupName registryUrl first rest :
  let host := if String.eqb first "docker.io" then "index.docker.io" else first in
  let scheme_ :=
    if insecure (hostRules_find env id ("https://" +:+ host))
    then "http://" else "https://" in
  let path := Str.join "/" rest in
  Str.split "/" lookupName = first :: rest ->
  rest <> [] ->
  Str.includes first "." || Str.includes first ":" = true ->
  negb (String.eqb registryUrl defaultRegistryUrl)
  && Str.startsWith lookupName (Url.ensureTrailingSlash (Url.strip_scheme registryUrl))
  = false ->
  getRegistryRepository env lookupName registryUrl =
    mkRegistryRepository (scheme_ +:+ host)
      (if Str.endsWith (scheme_ +:+ host) ".docker.io" && negb (Str.includes path "/")
       then "library/" +:+ path else path).
Proof.
  intros host scheme_ path Hsplit Hrest Hhost Hgate.
  unfold getRegistryRepository. rewrite Hgate, Hsplit.
  assert (Hlen : (1 <? length (first :: rest))%nat = true).
  { destruct rest; [contradiction|reflexivity]. }
  assert (Htruthy : Str.truthy first = true).
  { apply orb_true_iff in Hhost as [H|H]; eapply includes_truthy; eauto. }
  rewrite Hlen, Hhost. simpl andb. cbv beta iota zeta.
  rewrite Htruthy. fold host.
  assert (Hnoscheme : Url.has_scheme host = false).
  { unfold host. destruct (String.eqb first "docker.io"); [reflexivity|].
    apply has_scheme_slash, (split_segments "/" lookupName).
    rewrite Hsplit. now left. }
  rewrite Hnoscheme. simpl negb. cbv iota.
  fold path. unfold scheme_.
  destruct (insecure (hostRules_find env id ("https://" +:+ host)));
    [rewrite !downgrade_https|]; reflexivity.
Qed.

Lemma getRegistryRepository_explicit_host_witness :
  getRegistryRepository (Scenario.make [] [] [] (fun _ => no_rule))
    "myregistry.example.com/foo/bar" "https://index.docker.io"
  = mkRegistryRepository "https://myregistry.example.com" "foo/bar".
Proof.
  apply (getRegistryRepository_explicit_host (Scenario.make [] [] [] (fun _ => no_rule))
           "myregistry.example.com/foo/bar" "https://index.docker.io"
           "myregistry.example.com" ["foo"; "bar"]);
    [evaluate | discriminate | evaluate | evaluate].
Defined.

(** The two other resolutions the specification lists. *)
Example getRegistryRepository_library_ubuntu :
  getRegistryRepository (Scenario.make [] [] [] (fun _ => no_rule))
    "library/ubuntu" "https://index.docker.io"
  = mkRegistryRepository "https://index.docker.io" "library/ubuntu".
Proof. evaluate. Qed.

Example getRegistryRepository_ubuntu :
  getRegistryRepository (Scenario.make [] [] [] (fun _ => no_rule))
    "ubuntu" "https://index.docker.io"
  = mkRegistryRepository "https://index.docker.io" "library/ubuntu".
Proof. evaluate. Qed.

(** ** Fuel

    Fuel only cuts the recursion of [getConfigDigest] short: a result
    reached with some fuel is the result with any larger amount, and the
    functions that do not recurse never run out. *)

Lemma getConfigDigest_more_fuel env registry repo fuel :
  forall tag s out s',
  getConfigDigest env fuel registry repo tag s = (out, s') ->
  out <> OutOfFuel ->
  getConfigDigest env (S fuel) registry repo tag s = (out, s').
Proof.
  induction fuel as [|n IH]; intros tag s out s' H Hout.
  - simpl in H. injection H as <- <-. contradiction.
  - remember (S n) as m eqn:Hm. rewrite Hm in H. simpl in H. simpl.
    unfold bind, lift, ret, throw in *.
    repeat match goal with
           | H : context [match ?x with _ => _ end] |- _ =>
               lazymatch x with
               | getConfigDigest _ _ _ _ _ _ => fail
               | _ => destruct x eqn:?
               end
           end; try assumption.
    all: subst m; apply IH; assumption.
Qed.

Lemma getConfigDigest_fuel_mono env registry repo fuel fuel' tag s out s' :
  getConfigDigest env fuel registry repo tag s = (out, s') ->
  out <> OutOfFuel ->
  (fuel <= fuel')%nat ->
  getConfigDigest env fuel' registry repo tag s = (out, s').
Proof.
  intros H Hout Hle. induction Hle as [|k Hle IH]; [exact H|].
  now apply getConfigDigest_more_fuel.
Qed.

Lemma getLabels_fuel_mono env registry repo tag fuel fuel' s out s' :
  getLabels env fuel registry repo tag s = (out, s') ->
  out <> OutOfFuel ->
  (fuel <= fuel')%nat ->
  getLabels env fuel' registry repo tag s = (out, s').
Proof.
  intros H Hout Hle. unfold getLabels, bind, packageCache.get in *.
  destruct (Js.defined (packageCache.lookup cacheNamespace
                          (cacheKey registry repo tag) s)); [exact H|].
  unfold try_catch, getLabels_try, bind in *.
  destruct (getConfigDigest env fuel registry repo (JStr tag) s) as [o s1] eqn:Hd.
  assert (Ho : o <> OutOfFuel).
  { intros ->. simpl in H. injection H as <- <-. contradiction. }
  rewrite (getConfigDigest_fuel_mono _ _ _ _ _ _ _ _ _ Hd Ho Hle). exact H.
Qed.

(** Case analysis on the scrutinee of an innermost [match] of the goal. *)
Ltac has_inner_match t :=
  match t with context [match _ with _ => _ end] => idtac end.

Ltac destruct_innermost :=
  match goal with
  | |- context [match ?scrutinee with _ => _ end] =>
      tryif has_inner_match scrutinee then fail
      else destruct scrutinee eqn:?
  end.

Ltac never_out_of_fuel :=
  repeat (destruct_innermost; cbv beta iota); simpl; discriminate.

Lemma getECRAuthToken_total env region opts s :
  fst (getECRAuthToken env region opts s) <> OutOfFuel.
Proof.
  unfold getECRAuthToken, try_catch, bind, ecr_call, ret. never_out_of_fuel.
Qed.

Lemma getAuthHeaders_catch_total registry err s :
  fst (getAuthHeaders_catch registry err s) <> OutOfFuel.
Proof. unfold getAuthHeaders_catch, ret, throw. never_out_of_fuel. Qed.

Lemma getAuthHeaders_try_total env registry repo s :
  fst (getAuthHeaders_try env registry repo s) <> OutOfFuel.
Proof.
  unfold getAuthHeaders_try, bind, http_get_call, http_getJson_body, lift, ret, throw.
  destruct (http_get env (log s) (registry +:+ "/v2/") _) as [e|res];
    [simpl; discriminate|].
  destruct (res_headers res !! "www-authenticate"); [|simpl; discriminate].
  destruct (WWW_Authenticate env s0); [simpl; discriminate|].
  destruct (EcrRegex.exec registry) as [region|].
  - match goal with
    | |- context [getECRAuthToken ?e ?r ?o ?st] =>
        pose proof (getECRAuthToken_total e r o st) as Hecr;
        destruct (getECRAuthToken e r o st) as [[a|e'|] st']
    end; [| simpl; discriminate | contradiction (Hecr eq_refl)].
    never_out_of_fuel.
  - never_out_of_fuel.
Qed.

Lemma getAuthHeaders_total env registry repo s :
  fst (getAuthHeaders env registry repo s) <> OutOfFuel.
Proof.
  unfold getAuthHeaders, try_catch.
  pose proof (getAuthHeaders_try_total env registry repo s) as Ht.
  destruct (getAuthHeaders_try env registry repo s) as [[a|err|] s'];
    [simpl; discriminate | apply getAuthHeaders_catch_total | contradiction (Ht eq_refl)].
Qed.

Lemma getManifestResponse_total env registry repo tag s :
  fst (getManifestResponse env registry repo tag s) <> OutOfFuel.
Proof.
  unfold getManifestResponse, try_catch, getManifestResponse_try, bind.
  pose proof (getAuthHeaders_total env registry repo s) as Ha.
  destruct (getAuthHeaders env registry repo s) as [[h|e|] s1];
    [| | contradiction (Ha eq_refl)];
    unfold getManifestResponse_catch, http_get_call, ret, throw;
    never_out_of_fuel.
Qed.

(** With one unit of fuel per manifest fetched, [getConfigDigest] returns or
    raises whenever the manifest it fetches last is not a list. *)
Lemma getConfigDigest_one_call env registry repo tag s :
  fst (getConfigDigest env 1 registry repo tag s) = OutOfFuel ->
  exists response s1 manifest,
    getManifestResponse env registry repo tag s = (Returned (Some response), s1)
    /\ JSON_parse env (res_body response) = inr manifest
    /\ Manifest.schemaVersion_is_2 manifest = true
    /\ Manifest.has_mediaType manifest MediaType.manifestListV2 = true.
Proof.
  simpl. unfold bind.
  pose proof (getManifestResponse_total env registry repo tag s) as Hm.
  destruct (getManifestResponse env registry repo tag s) as [[[response|]|e|] s1];
    try (simpl; discriminate); [|contradiction (Hm eq_refl)].
  unfold lift, ret, throw.
  destruct (JSON_parse env (res_body response)) as [e|manifest] eqn:Hp;
    [simpl; discriminate|].
  destruct (Js.get manifest "schemaVersion") as [e|v] eqn:Hv; [simpl; discriminate|].
  destruct (Js.is_num v 2) eqn:H2; [|simpl; discriminate]. simpl negb. cbv iota.
  destruct (Js.get manifest "mediaType") as [e|t] eqn:Ht; [simpl; discriminate|].
  destruct (Js.is_str t MediaType.manifestListV2) eqn:Hl.
  - intros _. exists response, s1, manifest.
    unfold Manifest.schemaVersion_is_2, Manifest.has_mediaType.
    rewrite Hv, Ht. auto.
  - destruct (Js.is_str t MediaType.manifestV2); simpl;
      [destruct (Js.get manifest "config"); simpl|]; discriminate.
Qed.

(** * Further properties *)

(** ** What a call leaves behind *)

Section Frames.
Context (P : Event -> Prop).

Lemma only_requests_refl s : only_requests P s s.
Proof.
  repeat split. exists []. split; [now rewrite app_nil_r|constructor].
Qed.

Lemma only_requests_trans s1 s2 s3 :
  only_requests P s1 s2 -> only_requests P s2 s3 -> only_requests P s1 s3.
Proof.
  intros (Hc1 & Hn1 & evs1 & Hl1 & Hp1) (Hc2 & Hn2 & evs2 & Hl2 & Hp2).
  split; [congruence|]. split; [congruence|].
  exists (evs1 ++ evs2)%list. split.
  - rewrite Hl2, Hl1. now rewrite <- app_assoc.
  - apply Forall_app. auto.
Qed.

Lemma only_requests_record ev s : P ev -> only_requests P s (record ev s).
Proof.
  intros H. repeat split. exists [ev]. split; [reflexivity|].
  constructor; [exact H|constructor].
Qed.

Lemma requests_only_ret {A} (a : A) : requests_only P (ret a).
Proof. intros s. apply only_requests_refl. Qed.

Lemma requests_only_throw {A} err : requests_only P (@throw A err).
Proof. intros s. apply only_requests_refl. Qed.

Lemma requests_only_diverge {A} : requests_only P (@diverge A).
Proof. intros s. apply only_requests_refl. Qed.

Lemma requests_only_lift {A} (r : Thrown + A) : requests_only P (lift r).
Proof. destruct r; [apply requests_only_throw|apply requests_only_ret]. Qed.

Lemma requests_only_bind {A B} (m : M A) (k : A -> M B) :
  requests_only P m -> (forall a, requests_only P (k a)) ->
  requests_only P (bind m k).
Proof.
  intros Hm Hk s. unfold bind. specialize (Hm s).
  destruct (m s) as [[a|err|] s1]; simpl in *; [|exact Hm|exact Hm].
  eapply only_requests_trans; [exact Hm|apply Hk].
Qed.

Lemma requests_only_try_catch {A} (body : M A) handler :
  requests_only P body -> (forall err, requests_only P (handler err)) ->
  requests_only P (try_catch body handler).
Proof.
  intros Hm Hk s. unfold try_catch. specialize (Hm s).
  destruct (body s) as [[a|err|] s1]; simpl in *; [exact Hm| |exact Hm].
  eapply only_requests_trans; [exact Hm|apply Hk].
Qed.

Lemma requests_only_http_get env url opts :
  P (HttpGet url opts) -> requests_only P (http_get_call env url opts).
Proof.
  intros H s. unfold http_get_call.
  destruct (http_get env (log s) url opts); now apply only_requests_record.
Qed.

Lemma requests_only_http_getJson env url opts :
  P (HttpGetJson url opts) -> requests_only P (http_getJson_body env url opts).
Proof.
  intros H s. unfold http_getJson_body.
  destruct (http_getJson env (log s) url opts); now apply only_requests_record.
Qed.

Lemma requests_only_ecr env config :
  P (EcrGetAuthorizationToken config) -> requests_only P (ecr_call env config).
Proof.
  intros H s. unfold ecr_call.
  destruct (ecr_getAuthorizationToken env (log s) config);
    now apply only_requests_record.
Qed.

End Frames.

(** Splits a goal on the shape of the program: binds, handlers, branches. *)
Ltac frame_step :=
  first
    [ apply requests_only_ret
    | apply requests_only_throw
    | apply requests_only_diverge
    | apply requests_only_lift
    | apply requests_only_bind; [|intro]
    | apply requests_only_try_catch; [|intro]
    | apply requests_only_http_get
    | apply requests_only_http_getJson
    | apply requests_only_ecr
    | match goal with
      | |- requests_only _ (if ?b then _ else _) => destruct b
      | |- requests_only _ (match ?x with _ => _ end) => destruct x
      end ].

Lemma getECRAuthToken_requests env region opts :
  requests_only without_credentials (getECRAuthToken env region opts).
Proof. unfold getECRAuthToken. repeat frame_step. exact I. Qed.

Lemma getAuthHeaders_requests env registry repo :
  requests_only without_credentials (getAuthHeaders env registry repo).
Proof.
  unfold getAuthHeaders, getAuthHeaders_try, getAuthHeaders_catch.
  repeat first [apply getECRAuthToken_requests | frame_step]; simpl; auto.
Qed.

Lemma getManifestResponse_requests env registry repo tag :
  requests_only without_credentials (getManifestResponse env registry repo tag).
Proof.
  unfold getManifestResponse, getManifestResponse_try, getManifestResponse_catch.
  repeat first [apply getAuthHeaders_requests | frame_step]; simpl; auto.
Qed.

Lemma getConfigDigest_requests env registry repo fuel :
  forall tag,
    requests_only without_credentials (getConfigDigest env fuel registry repo tag).
Proof.
  induction fuel as [|n IH]; intros tag; simpl.
  - apply requests_only_diverge.
  - repeat first [apply getManifestResponse_requests | apply IH | frame_step].
Qed.

Lemma getLabels_try_effects env fuel registry repo tag s :
  let key := (cacheNamespace, cacheKey registry repo tag) in
  let r := getLabels_try env fuel registry repo tag s in
  now (snd r) = now s
  /\ (exists evs, log (snd r) = (log s ++ evs)%list /\ Forall without_credentials evs)
  /\ (cache (snd r) = cache s
      \/ exists labels,
           fst r = Returned labels
           /\ cache (snd r) = <[key := mkEntry labels (now s + cacheMinutes)]> (cache s)).
Proof.
  intros key r. subst r. unfold getLabels_try, bind.
  pose proof (getConfigDigest_requests env registry repo fuel (JStr tag) s) as H1.
  destruct (getConfigDigest env fuel registry repo (JStr tag) s) as [[digest|e|] s1];
    simpl in H1; destruct H1 as (Hc1 & Hn1 & evs1 & Hl1 & Hp1);
    try (simpl; split; [exact Hn1|split; [eauto|left; exact Hc1]]).
  destruct (Js.truthy digest); cbn [negb]; cbv beta iota;
    [|simpl; split; [exact Hn1|split; [eauto|left; exact Hc1]]].
  pose proof (getAuthHeaders_requests env registry repo s1) as H2.
  destruct (getAuthHeaders env registry repo s1) as [[[| |h]|e|] s2] eqn:Ha;
    simpl in H2; destruct H2 as (Hc2 & Hn2 & evs2 & Hl2 & Hp2);
    assert (Hlog2 : exists evs, log s2 = (log s ++ evs)%list
                                /\ Forall without_credentials evs)
      by (exists (evs1 ++ evs2)%list; split;
          [rewrite Hl2, Hl1; now rewrite <- app_assoc | now apply Forall_app]);
    try (simpl; split; [congruence|split; [exact Hlog2|left; congruence]]).
  destruct Hlog2 as (evs & Hl & Hp).
  set (url := registry +:+ "/v2/" +:+ repo +:+ "/blobs/" +:+ String_ env digest).
  set (opts := mkOptions no_rule (Some h) None).
  assert (Hlog3 : exists evs', log (record (HttpGet url opts) s2) = (log s ++ evs')%list
                               /\ Forall without_credentials evs').
  { exists (evs ++ [HttpGet url opts])%list. split.
    - simpl. rewrite Hl. now rewrite <- app_assoc.
    - apply Forall_app. split; [exact Hp|]. repeat constructor. }
  unfold http_get_call.
  destruct (http_get env (log s2) url opts) as [e|res];
    [simpl; split; [congruence|split; [exact Hlog3|left; congruence]]|].
  unfold lift, ret, throw.
  destruct (JSON_parse env (res_body res)) as [e|parsed];
    [simpl; split; [congruence|split; [exact Hlog3|left; congruence]]|].
  destruct (Js.get parsed "config") as [e|config];
    [simpl; split; [congruence|split; [exact Hlog3|left; congruence]]|].
  destruct (Js.get config "Labels") as [e|labels];
    [simpl; split; [congruence|split; [exact Hlog3|left; congruence]]|].
  simpl. split; [congruence|]. split; [exact Hlog3|].
  right. exists labels. split; [reflexivity|]. subst key. now rewrite Hn2, Hn1, Hc2, Hc1.
Qed.

(** X1. Whatever happens, [getLabels] leaves the clock alone and every cache
    entry but the one of its own key; the cache as a whole is either as it
    was, or the call returned [labels] and stored them under its key with a
    life of 60 minutes. *)
Theorem getLabels_cache_discipline env fuel registry repo tag s :
  let key := (cacheNamespace, cacheKey registry repo tag) in
  let r := getLabels env fuel registry repo tag s in
  now (snd r) = now s
  /\ delete key (cache (snd r)) = delete key (cache s)
  /\ (cache (snd r) = cache s
      \/ exists labels,
           fst r = Returned labels
           /\ cache (snd r) = <[key := mkEntry labels (now s + cacheMinutes)]> (cache s)).
Proof.
  intros key r.
  assert (H : now (snd r) = now s
              /\ (cache (snd r) = cache s
                  \/ exists labels,
                       fst r = Returned labels
                       /\ cache (snd r)
                          = <[key := mkEntry labels (now s + cacheMinutes)]> (cache s))).
  { subst r. unfold getLabels, bind, packageCache.get.
    destruct (Js.defined (packageCache.lookup cacheNamespace
                            (cacheKey registry repo tag) s));
      [simpl; auto|].
    destruct (getLabels_try_effects env fuel registry repo tag s) as (Hn & _ & Hc).
    unfold try_catch.
    destruct (getLabels_try env fuel registry repo tag s) as [[a|err|] s1];
      simpl in *; try (split; [exact Hn|exact Hc]).
    assert (Hsame : cache s1 = cache s).
    { destruct Hc as [Hc|(labels & Hl & _)]; [exact Hc|discriminate]. }
    destruct (instanceof_ExternalHostError err) eqn:He.
    - rewrite (getLabels_catch_ExternalHostError _ _ _ He). simpl. auto.
    - rewrite (getLabels_catch_other _ _ _ He). simpl. auto. }
  destruct H as (Hn & Hc). split; [exact Hn|]. split; [|exact Hc].
  destruct Hc as [->|(labels & _ & ->)]; [reflexivity|].
  apply delete_insert_eq.
Qed.

(** X2. A lookup that ends in an error stores nothing: when the [try] block
    of [getLabels] raises, whether the error is passed on or answered with
    [{}], the cache is as it was before the call. *)
Theorem getLabels_failure_not_cached env fuel registry repo tag s err s1 :
  packageCache.lookup cacheNamespace (cacheKey registry repo tag) s = JUndefined ->
  getLabels_try env fuel registry repo tag s = (Raised err, s1) ->
  cache (snd (getLabels env fuel registry repo tag s)) = cache s
  /\ fst (getLabels env fuel registry repo tag s)
     = (if instanceof_ExternalHostError err then Raised err else Returned (JObj [])).
Proof.
  intros Hmiss Htry.
  destruct (getLabels_try_effects env fuel registry repo tag s) as (_ & _ & Hc).
  rewrite Htry in Hc. simpl in Hc.
  assert (Hsame : cache s1 = cache s).
  { destruct Hc as [Hc|(labels & Hl & _)]; [exact Hc|discriminate]. }
  rewrite (getLabels_miss _ _ _ _ _ _ Hmiss), (try_catch_raised _ _ _ _ _ Htry).
  destruct (instanceof_ExternalHostError err) eqn:He.
  - rewrite (getLabels_catch_ExternalHostError _ _ _ He). auto.
  - rewrite (getLabels_catch_other _ _ _ He). auto.
Qed.

Lemma getLabels_failure_not_cached_witness :
  let env := Scenario.image_site Scenario.other Scenario.good_token
               Scenario.good_manifest (Scenario.status 404) in
  cache (snd (getLabels env 1 Scenario.other Scenario.repo "latest" Scenario.fresh)) = ∅
  /\ fst (getLabels env 1 Scenario.other Scenario.repo "latest" Scenario.fresh)
     = Returned (JObj []).
Proof.
  intros env.
  apply (getLabels_failure_not_cached env 1 Scenario.other Scenario.repo "latest"
           Scenario.fresh (Scenario.HTTPError 404)
           (snd (getLabels_try env 1 Scenario.other Scenario.repo "latest"
                   Scenario.fresh))); evaluate.
Defined.

(** X3. No HTTP request made in the course of [getLabels] (the probes, the
    checks of Basic headers, the token exchanges, the manifest and blob
    requests) has [username] or [password] among its options: the log only
    grows, and by such requests only. *)
Theorem getLabels_requests_without_credentials env fuel registry repo tag s :
  exists evs,
    log (snd (getLabels env fuel registry repo tag s)) = (log s ++ evs)%list
    /\ Forall without_credentials evs.
Proof.
  unfold getLabels, bind, packageCache.get.
  destruct (Js.defined (packageCache.lookup cacheNamespace
                          (cacheKey registry repo tag) s)).
  - exists []. simpl. split; [now rewrite app_nil_r|constructor].
  - destruct (getLabels_try_effects env fuel registry repo tag s) as (_ & Hl & _).
    unfold try_catch.
    destruct (getLabels_try env fuel registry repo tag s) as [[a|err|] s1];
      simpl in *; try exact Hl.
    destruct (instanceof_ExternalHostError err) eqn:He.
    + now rewrite (getLabels_catch_ExternalHostError _ _ _ He).
    + now rewrite (getLabels_catch_other _ _ _ He).
Qed.

(** X4. [getAuthHeaders], [getManifestResponse] and [getConfigDigest] never
    write to the cache and never move the clock. *)
Theorem registry_calls_keep_cache env fuel registry repo tag s :
  (cache (snd (getAuthHeaders env registry repo s)) = cache s
   /\ now (snd (getAuthHeaders env registry repo s)) = now s)
  /\ (cache (snd (getManifestResponse env registry repo tag s)) = cache s
      /\ now (snd (getManifestResponse env registry repo tag s)) = now s)
  /\ (cache (snd (getConfigDigest env fuel registry repo tag s)) = cache s
      /\ now (snd (getConfigDigest env fuel registry repo tag s)) = now s).
Proof.
  destruct (getAuthHeaders_requests env registry repo s) as (H1 & H2 & _).
  destruct (getManifestResponse_requests env registry repo tag s) as (H3 & H4 & _).
  destruct (getConfigDigest_requests env registry repo fuel tag s) as (H5 & H6 & _).
  auto.
Qed.

(** ** More on [getRegistryRepository] *)

Lemma startsWith_app s p :
  Str.startsWith s p = true -> exists t, s = p +:+ t.
Proof.
  unfold Str.startsWith. revert s.
  induction p as [|a p IH]; intros s H; [exists s; reflexivity|].
  destruct s as [|b s]; simpl in H; [discriminate|].
  destruct (Ascii.ascii_dec a b) as [->|]; [|discriminate].
  destruct (IH _ H) as (t & ->). exists t. reflexivity.
Qed.

Lemma startsWith_append p t : Str.startsWith (p +:+ t) p = true.
Proof.
  unfold Str.startsWith. induction p as [|a p IH]; simpl.
  - destruct t; reflexivity.
  - destruct (Ascii.ascii_dec a a); [exact IH|contradiction].
Qed.

Lemma drop_append p t : Str.drop (String.length p) (p +:+ t) = t.
Proof. induction p as [|a p IH]; simpl; [destruct t; reflexivity|exact IH]. Qed.

Lemma replace_unfold pat rep s :
  Str.replace pat rep s =
    if Str.startsWith s pat then rep +:+ Str.drop (String.length pat) s
    else match s with
         | EmptyString => EmptyString
         | String c t => String c (Str.replace pat rep t)
         end.
Proof. destruct s; reflexivity. Qed.

(** Removing a prefix with [replace]. *)
Lemma replace_prefix p t : Str.replace p EmptyString (p +:+ t) = t.
Proof. rewrite replace_unfold, startsWith_append, drop_append. reflexivity. Qed.

Lemma has_scheme_https s : Url.has_scheme ("https://" +:+ s) = true.
Proof. unfold Url.has_scheme, Str.startsWith. simpl. destruct s; reflexivity. Qed.

Lemma ensure_scheme s :
  Url.has_scheme (if negb (Url.has_scheme s) then "https://" +:+ s else s) = true.
Proof.
  destruct (Url.has_scheme s) eqn:H; simpl; [exact H|apply has_scheme_https].
Qed.

(** The downgrade of [https] keeps a scheme in front. *)
Lemma downgrade_keeps_scheme s :
  Url.has_scheme s = true -> Url.has_scheme (Str.replace "https" "http" s) = true.
Proof.
  unfold Url.has_scheme. intros H. apply orb_true_iff in H as [H|H];
    apply startsWith_app in H as (t & ->).
  - change (Str.replace "https" "http" ("http://" +:+ t))
      with ("http://" +:+ Str.replace "https" "http" t).
    unfold Str.startsWith. simpl.
    destruct (Str.replace "https" "http" t); reflexivity.
  - change (Str.replace "https" "http" ("https://" +:+ t)) with ("http://" +:+ t).
    unfold Str.startsWith. simpl. destruct t; reflexivity.
Qed.

(** X5. The registry of every resolution begins with [http://] or
    [https://], whatever the lookup name, the registry URL and the host
    rules. *)
Theorem getRegistryRepository_registry_has_scheme env lookupName registryUrl :
  Url.has_scheme (registry (getRegistryRepository env lookupName registryUrl)) = true.
Proof.
  unfold getRegistryRepository.
  destruct (negb (String.eqb registryUrl defaultRegistryUrl)
            && Str.startsWith lookupName
                 (Url.ensureTrailingSlash (Url.strip_scheme registryUrl))).
  - simpl. apply ensure_scheme.
  - cbv zeta.
    match goal with
    | |- context [let '(r, sp) := ?x in _] => destruct x as [r sp]
    end.
    simpl.
    match goal with
    | |- context [insecure ?o] => destruct (insecure o)
    end; [apply downgrade_keeps_scheme|]; apply ensure_scheme.
Qed.

(** Joining what [split] produced gives the string back. *)
Lemma join_split sep s :
  Str.join (String sep EmptyString) (Str.split sep s) = s.
Proof.
  induction s as [|c t IH]; [reflexivity|]. simpl.
  destruct (split_head_tail sep t) as (h & r & Hs). rewrite Hs in *.
  destruct (Ascii.eqb c sep) eqn:Hc.
  - apply Ascii.eqb_eq in Hc. subst c.
    change (Str.join (String sep EmptyString) (EmptyString :: h :: r))
      with (String sep (Str.join (String sep EmptyString) (h :: r))).
    now rewrite IH.
  - destruct r as [|h' r].
    + simpl in IH. simpl. now rewrite IH.
    + change (Str.join (String sep EmptyString) (String c h :: h' :: r))
        with (String c (Str.join (String sep EmptyString) (h :: h' :: r))).
      now rewrite IH.
Qed.

(** X6. When the registry URL is not the default one and the lookup name
    begins with its host and path (scheme removed, one slash at the end),
    the registry is the registry URL without trailing slashes, given
    [https://] if it has no scheme, and the repository is the rest of the
    lookup name: host rules are not consulted, [docker.io] is not rewritten
    and no [library/] is put in front. *)
Theorem getRegistryRepository_registryUrl_prefix env registryUrl rest :
  let prefix := Url.ensureTrailingSlash (Url.strip_scheme registryUrl) in
  let trimmed := Url.trimTrailingSlash registryUrl in
  String.eqb registryUrl defaultRegistryUrl = false ->
  getRegistryRepository env (prefix +:+ rest) registryUrl =
    mkRegistryRepository
      (if Url.has_scheme trimmed then trimmed else "https://" +:+ trimmed)
      rest.
Proof.
  intros prefix trimmed Hne. unfold getRegistryRepository.
  fold prefix. rewrite Hne, startsWith_append. simpl andb. cbv iota.
  fold trimmed. rewrite replace_prefix.
  destruct (Url.has_scheme trimmed); reflexivity.
Qed.

Lemma getRegistryRepository_registryUrl_prefix_witness :
  getRegistryRepository (Scenario.make [] [] [] (fun _ => mkHostRule None None (Some true)))
    "registry.docker.io/proxy/ubuntu" "registry.docker.io/proxy/"
  = mkRegistryRepository "https://registry.docker.io/proxy" "ubuntu".
Proof.
  apply (getRegistryRepository_registryUrl_prefix
           (Scenario.make [] [] [] (fun _ => mkHostRule None None (Some true)))
           "registry.docker.io/proxy/" "ubuntu").
  reflexivity.
Defined.

(** X7. Against the default registry, a lookup name whose first segment does
    not name a registry (it is the only segment, or has neither dot nor
    colon) resolves to the default registry, under [http] if host rules mark
    it insecure, and to the lookup name itself as repository, with
    [library/] in front exactly when the name has no slash. *)
Theorem getRegistryRepository_docker_hub env lookupName :
  names_registry lookupName = false ->
  getRegistryRepository env lookupName defaultRegistryUrl =
    mkRegistryRepository
      (if insecure (hostRules_find env id "https://index.docker.io")
       then "http://index.docker.io" else "https://index.docker.io")
      (if Str.includes lookupName "/" then lookupName
       else "library/" +:+ lookupName).
Proof.
  unfold names_registry. intros H. unfold getRegistryRepository.
  change (String.eqb defaultRegistryUrl defaultRegistryUrl) with true.
  simpl andb. cbv iota.
  pose proof (join_split "/" lookupName) as Hj.
  destruct (Str.split "/" lookupName) as [|first rest] eqn:Hs.
  - destruct (split_head_tail "/" lookupName) as (h & r & Hhr). congruence.
  - rewrite H. cbv beta iota zeta. rewrite Hj.
    change (Str.truthy defaultRegistryUrl) with true.
    match goal with
    | |- context [hostRules_find env id ?u] =>
        change u with "https://index.docker.io"
    end.
    destruct (insecure (hostRules_find env id "https://index.docker.io"));
      simpl; destruct (Str.includes lookupName "/"); reflexivity.
Qed.

Lemma getRegistryRepository_docker_hub_witness :
  let env := Scenario.make [] [] [] (fun _ => no_rule) in
  getRegistryRepository env "ubuntu" defaultRegistryUrl
  = mkRegistryRepository "https://index.docker.io" "library/ubuntu"
  /\ getRegistryRepository env "renovate/renovate" defaultRegistryUrl
     = mkRegistryRepository "https://index.docker.io" "renovate/renovate".
Proof.
  intros env. split.
  - apply (getRegistryRepository_docker_hub env "ubuntu"). reflexivity.
  - apply (getRegistryRepository_docker_hub env "renovate/renovate"). reflexivity.
Defined.

(** X8. Unless the lookup name begins with the host and path of a registry
    URL other than the default one, a resolution whose registry ends in
    [.docker.io] has a slash in its repository. *)
Theorem getRegistryRepository_docker_io_namespace env lookupName registryUrl :
  negb (String.eqb registryUrl defaultRegistryUrl)
  && Str.startsWith lookupName (Url.ensureTrailingSlash (Url.strip_scheme registryUrl))
  = false ->
  Str.endsWith (registry (getRegistryRepository env lookupName registryUrl)) ".docker.io"
  = true ->
  Str.includes (repository (getRegistryRepository env lookupName registryUrl)) "/" = true.
Proof.
  intros Hgate. unfold getRegistryRepository. rewrite Hgate. cbv zeta.
  match goal with
  | |- context [let '(r, sp) := ?x in _] => destruct x as [r sp]
  end.
  simpl. intros He. rewrite He. simpl.
  match goal with
  | |- context [negb (Str.includes ?path "/")] =>
      destruct (Str.includes path "/") eqn:Hi
  end; simpl; [exact Hi|reflexivity].
Qed.

Lemma getRegistryRepository_docker_io_namespace_witness :
  Str.includes
    (repository (getRegistryRepository (Scenario.make [] [] [] (fun _ => no_rule))
                   "registry.docker.io/ubuntu" defaultRegistryUrl)) "/" = true.
Proof.
  apply getRegistryRepository_docker_io_namespace; reflexivity.
Defined.

(** ** More on [getECRAuthToken] and [getAuthHeaders] *)

Lemma getECRAuthToken_outcome env region opts s :
  let config := mkECRConfig region (credentials_of opts) in
  getECRAuthToken env region opts s
  = (Returned (match ecr_getAuthorizationToken env (log s) config with
               | inr data =>
                   if Js.truthy (authorizationToken data) then authorizationToken data
                   else JNull
               | inl _ => JNull
               end),
     record (EcrGetAuthorizationToken config) s).
Proof.
  intros config. unfold getECRAuthToken, try_catch, bind, ecr_call. fold config.
  destruct (ecr_getAuthorizationToken env (log s) config) as [e|data];
    [reflexivity|].
  fold (authorizationToken data).
  destruct (Js.truthy (authorizationToken data)); reflexivity.
Qed.

(** X9. [getECRAuthToken] always returns, after exactly one call of the ECR
    service made with the region and, when both are set, the user name and
    password as access key: it returns the authorization token when the
    answer holds a truthy one, and [null] when the token is missing or the
    service raised. *)
Theorem getECRAuthToken_returns env region opts s :
  let config := mkECRConfig region (credentials_of opts) in
  exists v,
    getECRAuthToken env region opts s
    = (Returned v, record (EcrGetAuthorizationToken config) s)
    /\ v = match ecr_getAuthorizationToken env (log s) config with
           | inr data =>
               if Js.truthy (authorizationToken data) then authorizationToken data
               else JNull
           | inl _ => JNull
           end
    /\ (v = JNull \/ Js.truthy v = true).
Proof.
  intros config. eexists. split; [apply getECRAuthToken_outcome|].
  fold config. split; [reflexivity|].
  destruct (ecr_getAuthorizationToken env (log s) config) as [e|data]; [now left|].
  destruct (Js.truthy (authorizationToken data)) eqn:Ht; [now right|now left].
Qed.

(** X10. A registry whose [/v2/] answer carries no [www-authenticate]
    header, whatever its status, needs no auth: [getAuthHeaders] returns
    [{}] after that one request. *)
Theorem getAuthHeaders_anonymous env registry repo s probe :
  http_get env (log s) (registry +:+ "/v2/") probe_options = inr probe ->
  res_headers probe !! "www-authenticate" = None ->
  getAuthHeaders env registry repo s
  = (Returned (Headers ∅), record (HttpGet (registry +:+ "/v2/") probe_options) s).
Proof.
  intros Hp Hh. unfold getAuthHeaders. apply try_catch_returned.
  unfold getAuthHeaders_try. fold probe_options.
  rewrite (bind_returned _ _ _ _ _ (http_get_call_inr _ _ _ _ _ Hp)), Hh.
  reflexivity.
Qed.

Lemma getAuthHeaders_anonymous_witness :
  let env := Scenario.make [(Scenario.other +:+ "/v2/", Scenario.ok "{}")] [] []
               (fun _ => no_rule) in
  fst (getAuthHeaders env Scenario.other Scenario.repo Scenario.fresh)
  = Returned (Headers ∅).
Proof.
  intros env.
  rewrite (getAuthHeaders_anonymous env Scenario.other Scenario.repo Scenario.fresh
             (Scenario.ok "{}")); reflexivity.
Defined.

(** The handshake of a registry that is not an ECR one, after the probe and
    the parse of its challenge. *)
Lemma getAuthHeaders_try_challenged env registry repo s probe header ch :
  let url := registry +:+ "/v2/" in
  let found := hostRules_find env id url in
  let opts := stripped found (basic_headers env found) in
  let s1 := record (HttpGet url probe_options) s in
  http_get env (log s) url probe_options = inr probe ->
  res_headers probe !! "www-authenticate" = Some header ->
  WWW_Authenticate env header = inr ch ->
  EcrRegex.exec registry = None ->
  getAuthHeaders_try env registry repo s =
    (if String.eqb (Str.toUpperCase (scheme ch)) "BASIC" then
       http_get_call env url opts ;;; ret (of_opts_headers (headers opts))
     else
       authResponse <- http_getJson_body env (authUrl ch repo) opts ;;
       token1 <- lift (Js.get authResponse "token") ;;
       token <- (if Js.truthy token1 then ret token1
                 else lift (Js.get authResponse "access_token")) ;;
       if negb (Js.truthy token) then ret HeadersNull
       else ret (Headers {[ "authorization" := "Bearer " +:+ String_ env token ]})) s1.
Proof.
  intros url found opts s1 Hp Hh Hc He. unfold getAuthHeaders_try.
  fold url probe_options.
  rewrite (bind_returned _ _ _ _ _ (http_get_call_inr _ _ _ _ _ Hp)), Hh.
  rewrite (bind_lift_inr _ _ _ _ Hc), He. fold found s1.
  unfold opts, basic_headers, stripped, authUrl.
  destruct (credentials_of found) as [[u p]|]; reflexivity.
Qed.

(** X11. The token exchange. For a registry that is not an ECR one and whose
    challenge is not Basic, [getAuthHeaders] asks the realm of the challenge
    for a token for [repository:<repository>:pull], sending the Basic header
    of the credentials found as its only credential, and returns
    [Bearer <token>], where the answer's [token] is preferred to its
    [access_token]; with neither it returns [null]. *)
Theorem getAuthHeaders_bearer env registry repo s probe header ch body token access :
  let url := registry +:+ "/v2/" in
  let found := hostRules_find env id url in
  let opts := stripped found (basic_headers env found) in
  let s1 := record (HttpGet url probe_options) s in
  http_get env (log s) url probe_options = inr probe ->
  res_headers probe !! "www-authenticate" = Some header ->
  WWW_Authenticate env header = inr ch ->
  EcrRegex.exec registry = None ->
  String.eqb (Str.toUpperCase (scheme ch)) "BASIC" = false ->
  http_getJson env (log s1) (authUrl ch repo) opts = inr body ->
  Js.get body "token" = inr token ->
  Js.get body "access_token" = inr access ->
  getAuthHeaders env registry repo s =
    (Returned
       (if Js.truthy token
        then Headers {[ "authorization" := "Bearer " +:+ String_ env token ]}
        else if Js.truthy access
        then Headers {[ "authorization" := "Bearer " +:+ String_ env access ]}
        else HeadersNull),
     record (HttpGetJson (authUrl ch repo) opts) s1).
Proof.
  intros url found opts s1 Hp Hh Hc He Hs Hj Ht Ha.
  unfold getAuthHeaders. apply try_catch_returned.
  rewrite (getAuthHeaders_try_challenged _ _ _ _ _ _ _ Hp Hh Hc He), Hs.
  fold url found opts s1.
  assert (Hcall : http_getJson_body env (authUrl ch repo) opts s1
                  = (Returned body, record (HttpGetJson (authUrl ch repo) opts) s1)).
  { unfold http_getJson_body. rewrite Hj. reflexivity. }
  rewrite (bind_returned _ _ _ _ _ Hcall), (bind_lift_inr _ _ _ _ Ht).
  destruct (Js.truthy token) eqn:Htt.
  - unfold bind, ret. rewrite Htt. reflexivity.
  - rewrite (bind_lift_inr _ _ _ _ Ha).
    destruct (Js.truthy access); reflexivity.
Qed.

Lemma getAuthHeaders_bearer_witness :
  let env := Scenario.image_site Scenario.hub Scenario.good_token
               Scenario.good_manifest Scenario.good_blob in
  fst (getAuthHeaders env Scenario.hub Scenario.repo Scenario.fresh)
  = Returned (Headers {[ "authorization" := "Bearer t0k3n" ]}).
Proof.
  intros env.
  rewrite (getAuthHeaders_bearer env Scenario.hub Scenario.repo Scenario.fresh
             (Scenario.challenge 401 (Scenario.bearer_header Scenario.hub))
             (Scenario.bearer_header Scenario.hub)
             (mkChallenge "Bearer" (Some (Scenario.hub +:+ "/token")) (Some "registry"))
             Scenario.token_doc (JStr "t0k3n") JUndefined); evaluate.
Defined.

(** X12. Basic auth with credentials. For a registry that is not an ECR one
    and challenges with Basic, when host rules hold a user name and a
    password and the check of the headers is answered without an error,
    [getAuthHeaders] returns [Basic base64(username:password)], the header
    it sent with the check. *)
Theorem getAuthHeaders_basic_credentials
        env registry repo s probe header ch u p check :
  let url := registry +:+ "/v2/" in
  let found := hostRules_find env id url in
  let h : gmap string string :=
    {[ "authorization" := "Basic " +:+ base64 env (u +:+ ":" +:+ p) ]} in
  let s1 := record (HttpGet url probe_options) s in
  http_get env (log s) url probe_options = inr probe ->
  res_headers probe !! "www-authenticate" = Some header ->
  WWW_Authenticate env header = inr ch ->
  EcrRegex.exec registry = None ->
  String.eqb (Str.toUpperCase (scheme ch)) "BASIC" = true ->
  credentials_of found = Some (u, p) ->
  http_get env (log s1) url (stripped found (Some h)) = inr check ->
  getAuthHeaders env registry repo s
  = (Returned (Headers h), record (HttpGet url (stripped found (Some h))) s1).
Proof.
  intros url found h s1 Hp Hh Hc He Hs Hcred Hcheck.
  unfold getAuthHeaders. apply try_catch_returned.
  rewrite (getAuthHeaders_try_challenged _ _ _ _ _ _ _ Hp Hh Hc He), Hs.
  fold url found s1. unfold basic_headers. rewrite Hcred. fold h.
  rewrite (bind_returned _ _ _ _ _ (http_get_call_inr _ _ _ _ _ Hcheck)).
  reflexivity.
Qed.

Lemma getAuthHeaders_basic_credentials_witness :
  let rules := fun _ : string => mkHostRule (Some "user") (Some "secret") None in
  let env := Scenario.basic_site Scenario.other 200 rules in
  fst (getAuthHeaders env Scenario.other Scenario.repo Scenario.fresh)
  = Returned (Headers {[ "authorization" := "Basic " +:+ base64 env "user:secret" ]}).
Proof.
  intros rules env.
  rewrite (getAuthHeaders_basic_credentials env Scenario.other Scenario.repo
             Scenario.fresh (Scenario.challenge 200 "Basic realm=registry")
             "Basic realm=registry" (mkChallenge "Basic" (Some "registry") None)
             "user" "secret" (Scenario.challenge 200 "Basic realm=registry"));
    evaluate.
Defined.



(** X14. Errors [getAuthHeaders] answers with [null], for every registry,
    the default one included: any error whose [host] is [quay.io] (a 5xx
    too), and any error of status 401 or 403. *)
Theorem getAuthHeaders_ignorable env registry repo s err s' :
  getAuthHeaders_try env registry repo s = (Raised err, s') ->
  field_is (err_host err) "quay.io" || statusCode_is err 401 || statusCode_is err 403
  = true ->
  getAuthHeaders env registry repo s = (Returned HeadersNull, s').
Proof.
  intros Ht Hi. unfold getAuthHeaders. rewrite (try_catch_raised _ _ _ _ _ Ht).
  unfold getAuthHeaders_catch.
  destruct (field_is (err_host err) "quay.io"); [reflexivity|].
  destruct (statusCode_is err 401); [reflexivity|].
  destruct (statusCode_is err 403); [reflexivity|discriminate].
Qed.

Lemma getAuthHeaders_ignorable_witness :
  let env := Scenario.image_site Scenario.hub (Scenario.status 403)
               Scenario.good_manifest Scenario.good_blob in
  fst (getAuthHeaders env Scenario.hub Scenario.repo Scenario.fresh)
  = Returned HeadersNull.
Proof.
  intros env.
  rewrite (getAuthHeaders_ignorable env Scenario.hub Scenario.repo Scenario.fresh
             (Scenario.HTTPError 403)
             (snd (getAuthHeaders_try env Scenario.hub Scenario.repo Scenario.fresh)));
    evaluate.
Defined.

(** X15. A failure of the transport. An error named [RequestError] that has
    no status code and does not come from [quay.io], raised in the [try]
    block of [getAuthHeaders], is raised as [ExternalHostError] when the
    registry name ends in [docker.io] and answered with [null] otherwise. *)
Theorem getAuthHeaders_transport_failure env registry repo s err s' :
  getAuthHeaders_try env registry repo s = (Raised err, s') ->
  err_name err = "RequestError" ->
  err_statusCode err = None ->
  field_is (err_host err) "quay.io" = false ->
  getAuthHeaders env registry repo s =
    (if Str.endsWith registry "docker.io"
     then Raised (ExternalHostError err) else Returned HeadersNull, s').
Proof.
  intros Ht Hn Hc Hq. unfold getAuthHeaders. rewrite (try_catch_raised _ _ _ _ _ Ht).
  unfold getAuthHeaders_catch, statusCode_is, statusCode_5xx.
  rewrite Hq, Hc, Hn. simpl.
  destruct (Str.endsWith registry "docker.io"); [reflexivity|].
  destruct (String.eqb (err_message err) HOST_DISABLED); reflexivity.
Qed.

Lemma getAuthHeaders_transport_failure_witness :
  let down := Scenario.make [] [] [] (fun _ => no_rule) in
  fst (getAuthHeaders down Scenario.hub Scenario.repo Scenario.fresh)
  = Raised (ExternalHostError Scenario.RequestError)
  /\ fst (getAuthHeaders down Scenario.other Scenario.repo Scenario.fresh)
     = Returned HeadersNull.
Proof.
  intros down. split.
  - rewrite (getAuthHeaders_transport_failure down Scenario.hub Scenario.repo
               Scenario.fresh Scenario.RequestError
               (snd (getAuthHeaders_try down Scenario.hub Scenario.repo
                       Scenario.fresh))); evaluate.
  - rewrite (getAuthHeaders_transport_failure down Scenario.other Scenario.repo
               Scenario.fresh Scenario.RequestError
               (snd (getAuthHeaders_try down Scenario.other Scenario.repo
                       Scenario.fresh))); evaluate.
Defined.

(** X16. [getAuthHeaders] raises nothing but an [ExternalHostError], and
    only one that wraps an error raised in its own [try] block, not from
    [quay.io] and of a status other than 401 and 403; whatever the [try]
    block raises is never passed on unwrapped, an [ExternalHostError] of the
    HTTP layer included. *)
Theorem getAuthHeaders_raises_wrapped env registry repo s x s' :
  getAuthHeaders env registry repo s = (Raised x, s') ->
  exists err,
    x = ExternalHostError err
    /\ getAuthHeaders_try env registry repo s = (Raised err, s')
    /\ field_is (err_host err) "quay.io" = false
    /\ statusCode_is err 401 = false
    /\ statusCode_is err 403 = false
    /\ (String.eqb (err_name err) "RequestError" && Str.endsWith registry "docker.io"
        || statusCode_is err 429 && Str.endsWith registry "docker.io"
        || statusCode_5xx err) = true.
Proof.
  unfold getAuthHeaders, try_catch.
  destruct (getAuthHeaders_try env registry repo s) as [[a|err|] s0];
    try discriminate.
  unfold getAuthHeaders_catch. intros H. exists err.
  destruct (field_is (err_host err) "quay.io"); [discriminate|].
  destruct (statusCode_is err 401); [discriminate|].
  destruct (statusCode_is err 403); [discriminate|].
  destruct (String.eqb (err_name err) "RequestError" && Str.endsWith registry "docker.io");
    [injection H as <- <-; auto 10|].
  destruct (statusCode_is err 429 && Str.endsWith registry "docker.io");
    [injection H as <- <-; auto 10|].
  destruct (statusCode_5xx err); [injection H as <- <-; auto 10|].
  destruct (String.eqb (err_message err) HOST_DISABLED); discriminate.
Qed.

Lemma getAuthHeaders_raises_wrapped_witness :
  let env := Scenario.image_site Scenario.other (Scenario.status 502)
               Scenario.good_manifest Scenario.good_blob in
  exists err,
    ExternalHostError (Scenario.HTTPError 502) = ExternalHostError err
    /\ fst (getAuthHeaders_try env Scenario.other Scenario.repo Scenario.fresh)
       = Raised err.
Proof.
  intros env.
  destruct (getAuthHeaders_raises_wrapped env Scenario.other Scenario.repo
              Scenario.fresh (ExternalHostError (Scenario.HTTPError 502))
              (snd (getAuthHeaders env Scenario.other Scenario.repo Scenario.fresh)))
    as (err & Hx & Ht & _); [evaluate|].
  exists err. split; [exact Hx|]. rewrite Ht. reflexivity.
Defined.

(** ** More on [getManifestResponse], [getConfigDigest] and [getLabels] *)

(** X17. The manifest request. With auth headers [h] from [getAuthHeaders]
    and a request answered without an error, [getManifestResponse] returns
    the response as it came; the request went to
    [registry/v2/repository/manifests/tag] with the headers [h] plus an
    [accept] header naming the two manifest media types, which leaves an
    [authorization] header of [h] in place. *)
Theorem getManifestResponse_request env registry repo tag s h s1 response :
  let url := registry +:+ "/v2/" +:+ repo +:+ "/manifests/" +:+ String_ env tag in
  let sent := <[ "accept" := manifest_accept ]> h in
  getAuthHeaders env registry repo s = (Returned (Headers h), s1) ->
  http_get env (log s1) url (mkOptions no_rule (Some sent) None) = inr response ->
  getManifestResponse env registry repo tag s
  = (Returned (Some response),
     record (HttpGet url (mkOptions no_rule (Some sent) None)) s1)
  /\ sent !! "authorization" = h !! "authorization"
  /\ sent !! "accept"
     = Some (MediaType.manifestListV2 +:+ ", " +:+ MediaType.manifestV2).
Proof.
  intros url sent Ha Hg. split; [|split].
  - unfold getManifestResponse. apply try_catch_returned.
    unfold getManifestResponse_try. rewrite (bind_returned _ _ _ _ _ Ha).
    fold url sent.
    rewrite (bind_returned _ _ _ _ _ (http_get_call_inr _ _ _ _ _ Hg)).
    reflexivity.
  - unfold sent. now rewrite lookup_insert_ne.
  - unfold sent. now rewrite lookup_insert_eq.
Qed.

Lemma getManifestResponse_request_witness :
  let env := Scenario.image_site Scenario.hub Scenario.good_token
               Scenario.good_manifest Scenario.good_blob in
  fst (getManifestResponse env Scenario.hub Scenario.repo (JStr "latest")
         Scenario.fresh)
  = Returned (Some Scenario.good_manifest).
Proof.
  intros env.
  destruct (getManifestResponse_request env Scenario.hub Scenario.repo (JStr "latest")
              Scenario.fresh {[ "authorization" := "Bearer t0k3n" ]}
              (snd (getAuthHeaders env Scenario.hub Scenario.repo Scenario.fresh))
              Scenario.good_manifest) as (Hr & _); [evaluate|evaluate|].
  rewrite Hr. reflexivity.
Defined.

(** X18. Errors [getManifestResponse] answers with [null]: every error
    raised in its [try] block that is not an [ExternalHostError], has no
    status from 500 to 599 and is not a 429 for a registry ending in
    [docker.io]. That covers 401 and 404, timeouts, and, unlike in
    [getAuthHeaders], a failure of the transport to the default registry. *)
Theorem getManifestResponse_ignorable env registry repo tag s err s' :
  getManifestResponse_try env registry repo tag s = (Raised err, s') ->
  instanceof_ExternalHostError err = false ->
  statusCode_5xx err = false ->
  statusCode_is err 429 && Str.endsWith registry "docker.io" = false ->
  getManifestResponse env registry repo tag s = (Returned None, s').
Proof.
  intros Ht He H5 H429. unfold getManifestResponse.
  rewrite (try_catch_raised _ _ _ _ _ Ht).
  unfold getManifestResponse_catch. rewrite He, H5, H429.
  repeat match goal with
         | |- context [if ?b then _ else _] => destruct b
         end; reflexivity.
Qed.

Lemma getManifestResponse_ignorable_witness :
  let env := Scenario.image_site Scenario.hub Scenario.good_token
               Scenario.good_manifest Scenario.good_blob in
  fst (getManifestResponse_try env Scenario.hub Scenario.repo (JStr "nightly")
         Scenario.fresh)
  = Raised Scenario.RequestError
  /\ fst (getManifestResponse env Scenario.hub Scenario.repo (JStr "nightly")
            Scenario.fresh)
     = Returned None.
Proof.
  intros env. split; [evaluate|].
  rewrite (getManifestResponse_ignorable env Scenario.hub Scenario.repo
             (JStr "nightly") Scenario.fresh Scenario.RequestError
             (snd (getManifestResponse_try env Scenario.hub Scenario.repo
                     (JStr "nightly") Scenario.fresh))); evaluate.
Defined.

(** X19. Without auth headers there is no manifest request: when
    [getAuthHeaders] returns [null] or [undefined], [getManifestResponse]
    returns [null] from the state [getAuthHeaders] left, and so do
    [getConfigDigest], and [getLabels] with [{}], which it does not store. *)
Theorem no_auth_no_manifest env fuel registry repo tag s a s1 :
  getAuthHeaders env registry repo s = (Returned a, s1) ->
  a = HeadersNull \/ a = HeadersUndefined ->
  getManifestResponse env registry repo (JStr tag) s = (Returned None, s1)
  /\ getConfigDigest env (S fuel) registry repo (JStr tag) s = (Returned JNull, s1)
  /\ (packageCache.lookup cacheNamespace (cacheKey registry repo tag) s = JUndefined ->
      getLabels env (S fuel) registry repo tag s = (Returned (JObj []), s1)).
Proof.
  intros Ha Hn.
  assert (Hm : getManifestResponse env registry repo (JStr tag) s = (Returned None, s1)).
  { unfold getManifestResponse. apply try_catch_returned.
    unfold getManifestResponse_try. rewrite (bind_returned _ _ _ _ _ Ha).
    destruct Hn as [-> | ->]; reflexivity. }
  assert (Hd : getConfigDigest env (S fuel) registry repo (JStr tag) s
               = (Returned JNull, s1)).
  { simpl. now rewrite (bind_returned _ _ _ _ _ Hm). }
  split; [exact Hm|]. split; [exact Hd|].
  intros Hmiss. rewrite (getLabels_miss _ _ _ _ _ _ Hmiss).
  apply try_catch_returned. unfold getLabels_try.
  now rewrite (bind_returned _ _ _ _ _ Hd).
Qed.

Lemma no_auth_no_manifest_witness :
  let env := Scenario.image_site Scenario.other (Scenario.status 401)
               Scenario.good_manifest Scenario.good_blob in
  getLabels env 1 Scenario.other Scenario.repo "latest" Scenario.fresh
  = (Returned (JObj []),
     snd (getAuthHeaders env Scenario.other Scenario.repo Scenario.fresh)).
Proof.
  intros env.
  destruct (no_auth_no_manifest env 0 Scenario.other Scenario.repo "latest"
              Scenario.fresh HeadersNull
              (snd (getAuthHeaders env Scenario.other Scenario.repo Scenario.fresh)))
    as (_ & _ & Hl); [evaluate|now left|].
  apply Hl. evaluate.
Defined.

(** X20. What [getConfigDigest] returns is [null] or a truthy value: never
    [undefined], an empty string, [0] or [false]. *)
Theorem getConfigDigest_null_or_truthy env registry repo fuel :
  forall tag s v s',
    getConfigDigest env fuel registry repo tag s = (Returned v, s') ->
    v = JNull \/ Js.truthy v = true.
Proof.
  induction fuel as [|n IH]; intros tag s v s' H; [discriminate|].
  simpl in H. unfold bind, lift, ret, throw in H.
  repeat match type of H with
         | context [match ?x with _ => _ end] =>
             lazymatch x with
             | getConfigDigest _ _ _ _ _ _ => fail
             | Js.or _ _ => fail
             | _ => destruct x eqn:?
             end
         end;
    try discriminate;
    try (injection H as <- <-; now left);
    try (eapply IH; eassumption).
  injection H as <- <-. unfold Js.or.
  match goal with
  | |- context [Js.truthy ?d] => destruct (Js.truthy d) eqn:Hd
  end; [now right|now left].
Qed.

Lemma getConfigDigest_null_or_truthy_witness :
  JStr "sha256:abc" = JNull \/ Js.truthy (JStr "sha256:abc") = true.
Proof.
  apply (getConfigDigest_null_or_truthy Scenario.list_site Scenario.hub Scenario.repo 2
           (JStr "latest") Scenario.fresh (JStr "sha256:abc")
           (snd (getConfigDigest Scenario.list_site 2 Scenario.hub Scenario.repo
                   (JStr "latest") Scenario.fresh))).
  evaluate.
Defined.

(** X21. A manifest body that does not parse. [getConfigDigest] has no
    handler, so it raises what [JSON.parse] raised; [getLabels] answers that
    error with [{}], makes no further request and stores nothing. *)
Theorem unparsable_manifest env fuel registry repo tag s response s1 err :
  getManifestResponse env registry repo (JStr tag) s = (Returned (Some response), s1) ->
  JSON_parse env (res_body response) = inl err ->
  instanceof_ExternalHostError err = false ->
  getConfigDigest env (S fuel) registry repo (JStr tag) s = (Raised err, s1)
  /\ (packageCache.lookup cacheNamespace (cacheKey registry repo tag) s = JUndefined ->
      getLabels env (S fuel) registry repo tag s = (Returned (JObj []), s1)).
Proof.
  intros Hm Hp He.
  assert (Hd : getConfigDigest env (S fuel) registry repo (JStr tag) s
               = (Raised err, s1)).
  { simpl. rewrite (bind_returned _ _ _ _ _ Hm).
    now rewrite (bind_lift_inl _ _ _ _ Hp). }
  split; [exact Hd|]. intros Hmiss.
  rewrite (getLabels_miss _ _ _ _ _ _ Hmiss).
  rewrite (try_catch_raised _ _ _ _ _ (getLabels_try_digest_raised _ _ _ _ _ _ _ _ Hd)).
  now apply getLabels_catch_other.
Qed.

Lemma unparsable_manifest_witness :
  let env := Scenario.image_site Scenario.other Scenario.good_token
               (Scenario.ok "<html>") Scenario.good_blob in
  fst (getConfigDigest env 1 Scenario.other Scenario.repo (JStr "latest")
         Scenario.fresh)
  = Raised Scenario.SyntaxError
  /\ fst (getLabels env 1 Scenario.other Scenario.repo "latest" Scenario.fresh)
     = Returned (JObj []).
Proof.
  intros env.
  destruct (unparsable_manifest env 0 Scenario.other Scenario.repo "latest"
              Scenario.fresh (Scenario.ok "<html>")
              (snd (getManifestResponse env Scenario.other Scenario.repo
                      (JStr "latest") Scenario.fresh))
              Scenario.SyntaxError) as (Hd & Hl); try evaluate.
  rewrite Hd, Hl; [split; reflexivity|evaluate].
Defined.

(** X22. Fetch, then hit. When [getLabels] has fetched a config blob whose
    [config.Labels] holds anything but [undefined] (a mapping, [null], any
    value: it is not inspected), it returns that value, and every later call
    for the same registry, repository and tag made before 60 minutes have
    passed, with that cache entry still in place, returns the same value
    and makes no request. *)
Theorem getLabels_fetch_then_hit
        env fuel fuel' registry repo tag s digest s1 h s2 res parsed config labels later :
  let url := registry +:+ "/v2/" +:+ repo +:+ "/blobs/" +:+ String_ env digest in
  let opts := mkOptions no_rule (Some h) None in
  let key := (cacheNamespace, cacheKey registry repo tag) in
  let first := getLabels env fuel registry repo tag s in
  packageCache.lookup cacheNamespace (cacheKey registry repo tag) s = JUndefined ->
  getConfigDigest env fuel registry repo (JStr tag) s = (Returned digest, s1) ->
  Js.truthy digest = true ->
  getAuthHeaders env registry repo s1 = (Returned (Headers h), s2) ->
  http_get env (log s2) url opts = inr res ->
  JSON_parse env (res_body res) = inr parsed ->
  Js.get parsed "config" = inr config ->
  Js.get config "Labels" = inr labels ->
  Js.defined labels = true ->
  cache later !! key = cache (snd first) !! key ->
  (now later < now s + cacheMinutes)%Z ->
  fst first = Returned labels
  /\ getLabels env fuel' registry repo tag later = (Returned labels, later).
Proof.
  intros url opts key first Hmiss Hd Ht Ha Hg Hp Hc Hl Hdef Hsame Hlive.
  pose proof (getLabels_fetch _ _ _ _ _ _ _ _ _ _ _ _ _ _
                Hmiss Hd Ht Ha Hg Hp Hc Hl) as Hf.
  fold url opts in Hf. fold first in Hf.
  split; [rewrite Hf; reflexivity|].
  assert (Hlook : packageCache.lookup cacheNamespace (cacheKey registry repo tag) later
                  = labels).
  { apply lookup_live with (expiry := (now s + cacheMinutes)%Z); [|exact Hlive].
    fold key. rewrite Hsame, Hf.
    destruct (getConfigDigest_requests env registry repo fuel (JStr tag) s)
      as (_ & Hn1 & _).
    rewrite Hd in Hn1. simpl in Hn1.
    destruct (getAuthHeaders_requests env registry repo s1) as (_ & Hn2 & _).
    rewrite Ha in Hn2. simpl in Hn2.
    unfold key. cbn [snd]. rewrite set_stores. simpl. now rewrite Hn2, Hn1. }
  rewrite getLabels_hit; rewrite Hlook; [reflexivity|exact Hdef].
Qed.

Lemma getLabels_fetch_then_hit_witness :
  let env := Scenario.image_site Scenario.hub Scenario.good_token
               Scenario.good_manifest Scenario.good_blob in
  let first := getLabels env 1 Scenario.hub Scenario.repo "latest" Scenario.fresh in
  let later := mkState (cache (snd first)) 59 (log (snd first)) in
  getLabels env 0 Scenario.hub Scenario.repo "latest" later
  = (Returned (JObj [("maintainer", JStr "renovate")]), later).
Proof.
  intros env first later.
  refine (proj2 (getLabels_fetch_then_hit env 1 0 Scenario.hub Scenario.repo "latest"
                   Scenario.fresh (JStr "sha256:abc")
                   (snd (getConfigDigest env 1 Scenario.hub Scenario.repo
                           (JStr "latest") Scenario.fresh))
                   {[ "authorization" := "Bearer t0k3n" ]}
                   (snd (getAuthHeaders env Scenario.hub Scenario.repo
                           (snd (getConfigDigest env 1 Scenario.hub Scenario.repo
                                   (JStr "latest") Scenario.fresh))))
                   Scenario.good_blob Scenario.labelled_blob
                   (JObj [("Labels", JObj [("maintainer", JStr "renovate")])])
                   (JObj [("maintainer", JStr "renovate")])
                   later _ _ _ _ _ _ _ _ _ _ _)); evaluate.
Defined.

(** ** [ecrRegex] *)

Lemma take_skip p s : s = EcrRegex.take_while p s +:+ EcrRegex.skip_while p s.
Proof.
  induction s as [|c t IH]; [reflexivity|]. simpl.
  destruct (p c); [|reflexivity].
  change (String c t = String c (EcrRegex.take_while p t +:+ EcrRegex.skip_while p t)).
  f_equal. exact IH.
Qed.

Lemma take_while_all p s : all_chars p (EcrRegex.take_while p s) = true.
Proof.
  induction s as [|c t IH]; [reflexivity|]. simpl.
  destruct (p c) eqn:Hc; simpl; [now rewrite Hc|reflexivity].
Qed.

Lemma take_while_run p a c b :
  all_chars p a = true -> p c = false ->
  EcrRegex.take_while p (a +:+ String c b) = a.
Proof.
  intros Ha Hc. induction a as [|x a IH]; simpl in *.
  - now rewrite Hc.
  - apply andb_true_iff in Ha as [Hx Ha]. rewrite Hx. now rewrite IH.
Qed.

Lemma skip_while_run p a c b :
  all_chars p a = true -> p c = false ->
  EcrRegex.skip_while p (a +:+ String c b) = String c b.
Proof.
  intros Ha Hc. induction a as [|x a IH]; simpl in *.
  - now rewrite Hc.
  - apply andb_true_iff in Ha as [Hx Ha]. rewrite Hx. now apply IH.
Qed.

Lemma expect_inv lit s r : EcrRegex.expect lit s = Some r -> s = lit +:+ r.
Proof.
  unfold EcrRegex.expect. destruct (Str.startsWith s lit) eqn:H; [|discriminate].
  apply startsWith_app in H as (t & ->). rewrite drop_append. now intros [= ->].
Qed.

Lemma expect_append lit r : EcrRegex.expect lit (lit +:+ r) = Some r.
Proof. unfold EcrRegex.expect. now rewrite startsWith_append, drop_append. Qed.

Lemma match_at_inv s region :
  EcrRegex.match_at s = Some region ->
  exists digits post,
    s = digits +:+ ".dkr.ecr." +:+ region +:+ ".amazonaws.com" +:+ post
    /\ Str.truthy digits = true /\ all_chars EcrRegex.is_digit digits = true
    /\ Str.truthy region = true /\ all_chars EcrRegex.is_region_char region = true.
Proof.
  unfold EcrRegex.match_at.
  destruct (Str.truthy (EcrRegex.take_while EcrRegex.is_digit s)) eqn:Hd;
    [|discriminate].
  destruct (EcrRegex.expect ".dkr.ecr." (EcrRegex.skip_while EcrRegex.is_digit s))
    as [r|] eqn:He1; [|discriminate].
  destruct (Str.truthy (EcrRegex.take_while EcrRegex.is_region_char r)) eqn:Hr;
    [|discriminate].
  destruct (EcrRegex.expect ".amazonaws.com"
              (EcrRegex.skip_while EcrRegex.is_region_char r))
    as [post|] eqn:He2; [|discriminate].
  intros [= <-].
  exists (EcrRegex.take_while EcrRegex.is_digit s), post.
  split; [|auto using take_while_all].
  rewrite (take_skip EcrRegex.is_digit s) at 1.
  rewrite (expect_inv _ _ _ He1).
  rewrite (take_skip EcrRegex.is_region_char r) at 1.
  rewrite (expect_inv _ _ _ He2).
  reflexivity.
Qed.

(** X23. What [ecrRegex] captures. When the registry name matches, the
    region is a non-empty run of lower-case letters, digits and hyphens that
    stands in the name between [.dkr.ecr.] and [.amazonaws.com], and at
    least one digit stands before [.dkr.ecr.]. *)
Theorem ecrRegex_exec_sound s region :
  EcrRegex.exec s = Some region ->
  exists pre digits post,
    s = pre +:+ digits +:+ ".dkr.ecr." +:+ region +:+ ".amazonaws.com" +:+ post
    /\ Str.truthy digits = true /\ all_chars EcrRegex.is_digit digits = true
    /\ Str.truthy region = true /\ all_chars EcrRegex.is_region_char region = true.
Proof.
  induction s as [|c t IH].
  - discriminate.
  - change (EcrRegex.exec (String c t))
      with (match EcrRegex.match_at (String c t) with
            | Some r => Some r
            | None => EcrRegex.exec t
            end).
    destruct (EcrRegex.match_at (String c t)) eqn:Hm.
    + intros [= ->]. destruct (match_at_inv _ _ Hm) as (d & post & Hs & H).
      exists EmptyString, d, post. auto.
    + intros H. destruct (IH H) as (pre & d & post & Hs & Hrest).
      exists (String c pre), d, post. split; [|exact Hrest].
      simpl. now rewrite Hs.
Qed.

Lemma ecrRegex_exec_sound_witness :
  exists pre digits post,
    EcrScenario.host
    = pre +:+ digits +:+ ".dkr.ecr." +:+ "us-east-1" +:+ ".amazonaws.com" +:+ post
    /\ Str.truthy digits = true.
Proof.
  destruct (ecrRegex_exec_sound EcrScenario.host "us-east-1" eq_refl)
    as (pre & d & post & Hs & Hd & _).
  exists pre, d, post. auto.
Defined.

Lemma match_at_canonical digits region post :
  Str.truthy digits = true -> all_chars EcrRegex.is_digit digits = true ->
  Str.truthy region = true -> all_chars EcrRegex.is_region_char region = true ->
  EcrRegex.match_at
    (digits +:+ ".dkr.ecr." +:+ region +:+ ".amazonaws.com" +:+ post)
  = Some region.
Proof.
  intros Hd Hda Hr Hra. unfold EcrRegex.match_at.
  change (".dkr.ecr." +:+ region +:+ ".amazonaws.com" +:+ post)
    with (String "." ("dkr.ecr." +:+ region +:+ ".amazonaws.com" +:+ post)).
  rewrite (take_while_run EcrRegex.is_digit digits "." _ Hda eq_refl), Hd.
  rewrite (skip_while_run EcrRegex.is_digit digits "." _ Hda eq_refl).
  change (String "." ("dkr.ecr." +:+ region +:+ ".amazonaws.com" +:+ post))
    with (".dkr.ecr." +:+ (region +:+ ".amazonaws.com" +:+ post)).
  rewrite expect_append.
  change (".amazonaws.com" +:+ post) with (String "." ("amazonaws.com" +:+ post)).
  rewrite (take_while_run EcrRegex.is_region_char region "." _ Hra eq_refl), Hr.
  rewrite (skip_while_run EcrRegex.is_region_char region "." _ Hra eq_refl).
  change (String "." ("amazonaws.com" +:+ post)) with (".amazonaws.com" +:+ post).
  now rewrite expect_append.
Qed.

Lemma exec_unfold s :
  EcrRegex.exec s =
    match EcrRegex.match_at s with
    | Some region => Some region
    | None => match s with
              | EmptyString => None
              | String _ t => EcrRegex.exec t
              end
    end.
Proof. destruct s; reflexivity. Qed.

Lemma match_at_not_digit c t :
  EcrRegex.is_digit c = false -> EcrRegex.match_at (String c t) = None.
Proof. intros H. unfold EcrRegex.match_at. simpl. now rewrite H. Qed.

(** X24. What [ecrRegex] accepts. A name made of anything without a digit
    (a scheme, say), then an account of one or more digits, [.dkr.ecr.], a
    region of one or more lower-case letters, digits and hyphens,
    [.amazonaws.com] and anything after it, is an ECR registry, and the
    region captured is that region. *)
Theorem ecrRegex_exec_complete pre digits region post :
  all_chars (fun c => negb (EcrRegex.is_digit c)) pre = true ->
  Str.truthy digits = true -> all_chars EcrRegex.is_digit digits = true ->
  Str.truthy region = true -> all_chars EcrRegex.is_region_char region = true ->
  EcrRegex.exec
    (pre +:+ digits +:+ ".dkr.ecr." +:+ region +:+ ".amazonaws.com" +:+ post)
  = Some region.
Proof.
  intros Hpre Hd Hda Hr Hra.
  set (name := digits +:+ ".dkr.ecr." +:+ region +:+ ".amazonaws.com" +:+ post).
  induction pre as [|c pre IH].
  - change (EmptyString +:+ name) with name.
    rewrite exec_unfold. unfold name.
    now rewrite (match_at_canonical digits region post Hd Hda Hr Hra).
  - simpl in Hpre. apply andb_true_iff in Hpre as [Hc Hpre].
    apply negb_true_iff in Hc.
    change (String c pre +:+ name) with (String c (pre +:+ name)).
    rewrite exec_unfold, (match_at_not_digit _ _ Hc). now apply IH.
Qed.

Lemma ecrRegex_exec_complete_witness :
  EcrRegex.exec EcrScenario.host = Some "us-east-1".
Proof.
  apply (ecrRegex_exec_complete "https://" "123456789012" "us-east-1" EmptyString);
    reflexivity.
Defined.

(** X25. [getManifestResponse] raises nothing but an [ExternalHostError]:
    either the one an inner call raised, passed on as it is, or one that
    wraps an error of its [try] block whose status is from 500 to 599, or
    is 429 for a registry ending in [docker.io]. *)
Theorem getManifestResponse_raises_host_fatal env registry repo tag s x s' :
  getManifestResponse env registry repo tag s = (Raised x, s') ->
  getManifestResponse_try env registry repo tag s = (Raised x, s')
  /\ instanceof_ExternalHostError x = true
  \/ exists err,
       x = ExternalHostError err
       /\ getManifestResponse_try env registry repo tag s = (Raised err, s')
       /\ instanceof_ExternalHostError err = false
       /\ statusCode_is err 401 = false
       /\ statusCode_is err 404 = false
       /\ (statusCode_is err 429 && Str.endsWith registry "docker.io"
           || statusCode_5xx err) = true.
Proof.
  unfold getManifestResponse, try_catch.
  destruct (getManifestResponse_try env registry repo tag s) as [[a|err|] s0];
    try discriminate.
  unfold getManifestResponse_catch. intros H.
  destruct (instanceof_ExternalHostError err) eqn:He;
    [injection H as <- <-; left; auto|].
  right. exists err.
  destruct (statusCode_is err 401); [discriminate|].
  destruct (statusCode_is err 404); [discriminate|].
  destruct (statusCode_is err 429 && Str.endsWith registry "docker.io");
    [injection H as <- <-; auto 10|].
  destruct (statusCode_5xx err); [injection H as <- <-; auto 10|].
  destruct (field_is (err_code err) "ETIMEDOUT"); discriminate.
Qed.

Lemma getManifestResponse_raises_host_fatal_witness :
  let env := Scenario.image_site Scenario.other Scenario.good_token
               (Scenario.status 503) Scenario.good_blob in
  exists err,
    ExternalHostError (Scenario.HTTPError 503) = ExternalHostError err
    /\ statusCode_5xx err = true.
Proof.
  intros env.
  destruct (getManifestResponse_raises_host_fatal env Scenario.other Scenario.repo
              (JStr "latest") Scenario.fresh
              (ExternalHostError (Scenario.HTTPError 503))
              (snd (getManifestResponse env Scenario.other Scenario.repo
                      (JStr "latest") Scenario.fresh)))
    as [(Ht & _)|(err & Hx & _ & _ & _ & _ & Hs)]; [evaluate| |].
  - exfalso. revert Ht. vm_compute. discriminate.
  - exists err. split; [exact Hx|].
    injection Hx as <-. reflexivity.
Defined.
